(** * DFGLS unit-root test: the driver [dfgls] of [dfgls.py]

    The Python function is embedded as a program in a small monad with

    - a store of numpy buffers (arrays are references into it, so that views
      share their buffer and in-place operators write through),
    - Python exceptions, and
    - a log of the calls made to statsmodels.

    Array elements are IEEE binary64 numbers, as in numpy's [float64], and
    [x] is a C-contiguous [float64] array.  statsmodels is a record of
    functions: each routine is handed the contents of its array arguments
    (it does not write into them) and returns a value or raises.  The global
    names [mackinnoncrit] and [mackinnonp] of line 135 and 136 are looked up
    when these lines run; [dfgls.py] itself binds neither of them.  Line
    numbers are those of [dfgls.py]. *)

From Stdlib Require Import ZArith Floats.
From stdpp Require Import gmap strings list fin_maps pretty.

Open Scope string_scope.
Open Scope list_scope.
Open Scope nat_scope.

(** ** Numbers *)

(** Conversion of a Python [int] (or an [int64] array element) to [float64].
    Exact below [2^53]; array lengths never leave that range. *)
Definition of_int (z : Z) : float :=
  if (z <? 0)%Z then PrimFloat.opp (PrimFloat.of_uint63 (Uint63.of_Z (- z)))
  else PrimFloat.of_uint63 (Uint63.of_Z z).
Arguments of_int : simpl never.

(** ** Exceptions and outcomes *)

Inductive exn : Type :=
| ValueError (msg : string)
| ZeroDivisionError
| IndexError
| NameError (name : string)
| OtherError (name : string).

Inductive outcome (A : Type) : Type :=
| Return (a : A)
| Raise (e : exn).
Arguments Return {A} a.
Arguments Raise {A} e.

(** ** Arrays *)

Definition loc := positive.

(** An [ndarray] object: the buffer it refers to and its shape.  Every array
    the function handles is C-contiguous, so the buffer is the row-major
    sequence of the elements. *)
Record ndarray : Type := NdArray { base : loc; shape : list nat }.

(** The contents of an array at one moment, as handed to statsmodels. *)
Record arrval : Type := ArrVal { av_shape : list nat; av_data : list float }.

Definition ndim (a : ndarray) : nat := length (shape a).
Definition prod_shape (sh : list nat) : nat := foldr Nat.mul 1%nat sh.
(** [a.shape[i]], at the places where [i < a.ndim] is known. *)
Definition dim (a : ndarray) (i : nat) : nat := nth i (shape a) 0%nat.

(** A basic-slicing selection of buffer positions: [len] of them, starting
    at [off], [step] apart. *)
Record slice : Type := Slice { off : nat; step : nat; len : nat }.

(** A view: a selection of the elements of a buffer. *)
Record view : Type := View { vbase : loc; vsel : slice }.

(** Rank of buffer position [k] in the selection, if it is selected. *)
Definition slice_pos (sl : slice) (k : nat) : option nat :=
  if decide (off sl ≤ k ∧ (k - off sl) `mod` step sl = 0 ∧
             (k - off sl) `div` step sl < len sl)%nat
  then Some ((k - off sl) `div` step sl)%nat else None.

(** The selected elements, in order. *)
Definition gather (sl : slice) (d : list float) : list float :=
  omap (λ i, d !! (off sl + i * step sl)%nat) (seq 0 (len sl)).

(** Elementwise update of the selected elements: the element of rank [i]
    becomes [f i old]. *)
Definition scatter (sl : slice) (f : nat → float → float) (d : list float)
  : list float :=
  imap (λ k old, match slice_pos sl k with Some i => f i old | None => old end) d.

(** [d[sl] -= rhs], [d[sl] = rhs] and [d[sl] -= c] on the elements. *)
Definition isub_data (sl : slice) (rhs d : list float) : list float :=
  scatter sl (λ i old, default old ((λ r, old - r)%float <$> rhs !! i)) d.
Definition assign_data (sl : slice) (rhs d : list float) : list float :=
  scatter sl (λ i old, default old (rhs !! i)) d.
Definition isub_scalar_data (sl : slice) (c : float) (d : list float)
  : list float :=
  scatter sl (λ _ old, (old - c)%float) d.

(** ** statsmodels *)

(** The tuple returned by [adfuller]: [(adfstat, pvalue, usedlag, nobs,
    critvalues)] followed by [icbest] when it has six elements. *)
Record adfres : Type := AdfRes {
  adfstat : float;
  pvalue : float;
  usedlag : Z;
  nobs : Z;
  critvalues : gmap string float;
  icbest : option float
}.

(** The global names of the module that [dfgls] uses.  [OLS] and
    [adfuller] are bound by the imports of lines 6 and 7; [OLS] stands for
    [OLS(endog, exog).fit().params].  [mackinnoncrit] and [mackinnonp] are
    free names: nothing in [dfgls.py] binds them, which is [None]; [Some f]
    is a namespace into which the name has been put from outside. *)
Record statsmodels : Type := Namespace {
  OLS : arrval → arrval → outcome (list float);
  adfuller : arrval → string → option Z → option string → outcome adfres;
  mackinnoncrit_global : option (Z → string → Z → outcome (list float));
  mackinnonp_global : option (float → string → Z → outcome float)
}.

(** The namespace of [dfgls.py] as it is, with the two imported routines. *)
Definition module_globals
    (ols : arrval → arrval → outcome (list float))
    (adf : arrval → string → option Z → option string → outcome adfres)
  : statsmodels :=
  Namespace ols adf None None.

(** A namespace in which the two free names are bound as well. *)
Definition StatsModels
    (ols : arrval → arrval → outcome (list float))
    (adf : arrval → string → option Z → option string → outcome adfres)
    (crit : Z → string → Z → outcome (list float))
    (p : float → string → Z → outcome float) : statsmodels :=
  Namespace ols adf (Some crit) (Some p).

(** What evaluating a call of the name gives: [NameError] when the name is
    not bound. *)
Definition mackinnoncrit (sm : statsmodels) (N : Z) (regression : string)
    (nobs : Z) : outcome (list float) :=
  match mackinnoncrit_global sm with
  | Some f => f N regression nobs
  | None => Raise (NameError "mackinnoncrit")
  end.
Definition mackinnonp (sm : statsmodels) (teststat : float)
    (regression : string) (N : Z) : outcome float :=
  match mackinnonp_global sm with
  | Some f => f teststat regression N
  | None => Raise (NameError "mackinnonp")
  end.

Inductive call : Type :=
| call_OLS (endog exog : arrval)
| call_adfuller (x : arrval) (regression : string) (maxlag : option Z)
    (autolag : option string)
| call_mackinnoncrit (N : Z) (regression : string) (nobs : Z)
| call_mackinnonp (teststat : float) (regression : string) (N : Z).

(** ** The monad *)

Record state : Type := State {
  heap : gmap loc (list float);
  calls : list call
}.

Definition M (A : Type) : Type := state → outcome A * state.

#[global] Instance M_ret : MRet M := λ A a s, (Return a, s).
#[global] Instance M_bind : MBind M := λ A B k m s,
  match m s with
  | (Return a, s') => k a s'
  | (Raise e, s') => (Raise e, s')
  end.

Definition raise {A} (e : exn) : M A := λ s, (Raise e, s).

(** A call into statsmodels: logged, then its outcome. *)
Definition invoke {A} (c : call) (r : outcome A) : M A :=
  λ s, (r, State (heap s) (calls s ++ [c])).

Definition alloc (d : list float) : M loc :=
  λ s, let l := fresh (dom (heap s)) in
       (Return l, State (<[l := d]> (heap s)) (calls s)).

Definition load (l : loc) : M (list float) :=
  λ s, (Return (default [] (heap s !! l)), s).

Definition store (l : loc) (d : list float) : M unit :=
  λ s, (Return tt, State (<[l := d]> (heap s)) (calls s)).

(** ** numpy *)

Module np.

(** [np.reshape(a, (-1, 1))]: a view on the same buffer. *)
Definition reshape_column (a : ndarray) : M ndarray :=
  mret (NdArray (base a) [prod_shape (shape a); 1%nat]).

(** [a.reshape(sh)]: a view on the same buffer, the size has to agree. *)
Definition reshape (a : ndarray) (sh : list nat) : M ndarray :=
  if decide (prod_shape sh = prod_shape (shape a))
  then mret (NdArray (base a) sh)
  else raise (ValueError "cannot reshape array").

(** [np.copy(a)]: a new buffer. *)
Definition copy (a : ndarray) : M ndarray :=
  d ← load (base a);
  l ← alloc d;
  mret (NdArray l (shape a)).

(** [np.ones(shape=sh)]: a new buffer. *)
Definition ones (sh : list nat) : M ndarray :=
  l ← alloc (replicate (prod_shape sh) 1%float);
  mret (NdArray l sh).

(** [np.arange(a, b)] for integers. *)
Definition arange (a b : Z) : list Z :=
  (λ i, (a + Z.of_nat i)%Z) <$> seq 0 (Z.to_nat (b - a)).

(** [a[1:]] and [a[:-1]] of a two-dimensional array: whole rows. *)
Definition rows_from1 (a : ndarray) : view :=
  View (base a) (Slice (dim a 1) 1 ((dim a 0 - 1) * dim a 1)).
Definition rows_to_last (a : ndarray) : view :=
  View (base a) (Slice 0 1 ((dim a 0 - 1) * dim a 1)).

(** [a[1:, j]] and [a[:-1, j]] of a two-dimensional array. *)
Definition col_from1 (a : ndarray) (j : nat) : view :=
  View (base a) (Slice (dim a 1 + j) (dim a 1) (dim a 0 - 1)).
Definition col_to_last (a : ndarray) (j : nat) : view :=
  View (base a) (Slice j (dim a 1) (dim a 0 - 1)).

(** The whole of a one-dimensional array. *)
Definition whole (a : ndarray) : view :=
  View (base a) (Slice 0 1 (dim a 0)).

(** The value of a selection (a temporary when it is an operand). *)
Definition get (v : view) : M (list float) :=
  d ← load (vbase v);
  mret (gather (vsel v) d).

Definition broadcast_error {A} : M A :=
  raise (ValueError "operands could not be broadcast together").

(** [v -= rhs] and [v = rhs] with an array on the right, [v -= c] with a
    scalar: the right-hand side is a value computed before the write. *)
Definition isub (v : view) (rhs : list float) : M unit :=
  if decide (length rhs = len (vsel v)) then
    d ← load (vbase v);
    store (vbase v) (isub_data (vsel v) rhs d)
  else broadcast_error.

Definition assign (v : view) (rhs : list float) : M unit :=
  if decide (length rhs = len (vsel v)) then
    d ← load (vbase v);
    store (vbase v) (assign_data (vsel v) rhs d)
  else broadcast_error.

Definition isub_scalar (v : view) (c : float) : M unit :=
  d ← load (vbase v);
  store (vbase v) (isub_scalar_data (vsel v) c d).

(** [a - c] with a scalar: a new array. *)
Definition sub_scalar (a : ndarray) (c : float) : M ndarray :=
  d ← load (base a);
  l ← alloc ((λ v, (v - c)%float) <$> d);
  mret (NdArray l (shape a)).

(** The contents of an array passed as an argument. *)
Definition value (a : ndarray) : M arrval :=
  d ← load (base a);
  mret (ArrVal (shape a) d).

End np.

(** The value of a global name: [NameError] when nothing binds it. *)
Definition global_name {A} (name : string) (binding : option A) : M A :=
  match binding with
  | Some f => mret f
  | None => raise (NameError name)
  end.

(** [seq[i]] on a Python sequence or a one-dimensional array. *)
Definition getitem {A} (l : list A) (i : nat) : M A :=
  match l !! i with
  | Some a => mret a
  | None => raise IndexError
  end.

(** [a / b] with [b] a Python [int]; for [7 / b] the dividend is the
    conversion of [7], which gives Python's quotient of two [int]s as long
    as [b] is below [2^53]. *)
Definition truediv (a : float) (b : Z) : M float :=
  if decide (b = 0%Z) then raise ZeroDivisionError
  else mret (a / of_int b)%float.

(** ** [dfgls] *)

(** The dictionary built on line 137. *)
Definition cv_dict (cv1 cv5 cv10 : float) : gmap string float :=
  <["1%" := cv1]> (<["5%" := cv5]> (<["10%" := cv10]> ∅)).

Section dfgls.
Variable sm : statsmodels.

(** Lines 99-105. *)
Definition check_args (x : ndarray) (regression : string) : M unit :=
  (if decide (regression ∉ ["c"; "ct"]) then
     raise (ValueError ("DFGLS: regression option '" +:+ regression
                          +:+ "' not understood"))
   else mret tt);;
  if decide (2 < ndim x ∨ (ndim x = 2 ∧ dim x 1 ≠ 1))%nat then
    raise (ValueError
      "DFGLS: x must be a 1d array or a 2d array with a single column")
  else mret tt.

(** Lines 109-114: [alpha] and the initial [exog]. *)
Definition init_alpha_exog (x : ndarray) (regression : string)
  : M (float * ndarray) :=
  if decide (regression = "c") then
    q ← truediv (of_int 7) (Z.of_nat (dim x 0));
    let alpha := (of_int 1 - q)%float in
    exog ← np.ones [dim x 0; 1%nat];
    mret (alpha, exog)
  else
    q ← truediv 13.5%float (Z.of_nat (dim x 0));
    let alpha := (of_int 1 - q)%float in
    exog ← np.ones [dim x 0; 2%nat];
    mret (alpha, exog).

(** Lines 116-117: the [endog] vector of the auxiliary regression. *)
Definition setup_endog (x : ndarray) (alpha : float) : M ndarray :=
  endog ← np.copy x;
  prev ← np.get (np.rows_to_last endog);
  np.isub (np.rows_from1 endog) ((λ v, alpha * v)%float <$> prev);;
  mret endog.

(** Lines 119-122: the [exog] matrix of the auxiliary regression. *)
Definition setup_exog (x exog : ndarray) (regression : string)
    (alpha : float) : M unit :=
  np.isub_scalar (np.col_from1 exog 0) alpha;;
  if decide (regression = "ct") then
    np.assign (np.col_from1 exog 1)
      (of_int <$> np.arange 2 (Z.of_nat (dim x 0) + 1));;
    prev ← np.get (np.col_to_last exog 1);
    np.isub (np.col_from1 exog 1) ((λ v, alpha * v)%float <$> prev)
  else mret tt.

(** Line 124. *)
Definition run_OLS (endog exog : ndarray) : M (list float) :=
  en ← np.value endog;
  ex ← np.value exog;
  invoke (call_OLS en ex) (OLS sm en ex).

(** Lines 127-129: the demeaned or detrended series. *)
Definition detrend (x : ndarray) (regression : string) (arc : list float)
  : M ndarray :=
  x1 ← np.reshape x [dim x 0];
  tmp ← np.copy x1;
  a0 ← getitem arc 0;
  dtx ← np.sub_scalar tmp a0;
  (if decide (regression = "ct") then
     a1 ← getitem arc 1;
     np.isub (np.whole dtx)
       ((λ t, a1 * of_int t)%float <$> np.arange 1 (Z.of_nat (dim x 0) + 1))
   else mret tt);;
  mret dtx.

(** Line 132. *)
Definition run_adfuller (dtx : ndarray) (maxlag : option Z)
    (autolag : option string) : M adfres :=
  v ← np.value dtx;
  invoke (call_adfuller v "nc" maxlag autolag)
         (adfuller sm v "nc" maxlag autolag).

(** Lines 134-137: the result for ['ct'], a list of five elements.  Each
    of the two names is looked up before its arguments are evaluated and the
    call is made. *)
Definition correct_ct (dtx : ndarray) (res : adfres) : M adfres :=
  crit ← global_name "mackinnoncrit" (mackinnoncrit_global sm);
  let n := Z.of_nat (dim dtx 0) in
  cvs ← invoke (call_mackinnoncrit 1 "c" n) (crit 1%Z "c" n);
  pval ← global_name "mackinnonp" (mackinnonp_global sm);
  p ← invoke (call_mackinnonp (adfstat res) "c" 1)
             (pval (adfstat res) "c" 1%Z);
  cv1 ← getitem cvs 0;
  cv5 ← getitem cvs 1;
  cv10 ← getitem cvs 2;
  mret (AdfRes (adfstat res) p (usedlag res) (nobs res)
          (cv_dict cv1 cv5 cv10) None).

Definition dfgls (x : ndarray) (regression : string) (maxlag : option Z)
    (autolag : option string) : M adfres :=
  check_args x regression;;
  x ← np.reshape_column x;
  '(alpha, exog) ← init_alpha_exog x regression;
  endog ← setup_endog x alpha;
  setup_exog x exog regression alpha;;
  arc ← run_OLS endog exog;
  dtx ← detrend x regression arc;
  res ← run_adfuller dtx maxlag autolag;
  if decide (regression = "ct") then correct_ct dtx res
  else mret res.

End dfgls.

(** * The arrays [dfgls] builds, as functions of the series *)

(** Number of columns of [exog]. *)
Definition ncols (regression : string) : nat :=
  if decide (regression = "c") then 1 else 2.

(** Contents of [endog] after line 117, for a series [d] of length [n]. *)
Definition endog_data (alpha : float) (n : nat) (d : list float) : list float :=
  isub_data (Slice 1 1 ((n - 1) * 1))
    ((λ v, alpha * v)%float <$> gather (Slice 0 1 ((n - 1) * 1)) d) d.

(** Contents of [exog] after line 122. *)
Definition exog_data (regression : string) (alpha : float) (n : nat)
  : list float :=
  let k := ncols regression in
  let e1 := isub_scalar_data (Slice (k + 0) k (n - 1)) alpha
              (replicate (prod_shape [n; k]) 1%float) in
  if decide (regression = "ct") then
    let e2 := assign_data (Slice (k + 1) k (n - 1))
                (of_int <$> np.arange 2 (Z.of_nat n + 1)) e1 in
    isub_data (Slice (k + 1) k (n - 1))
      ((λ v, alpha * v)%float <$> gather (Slice 1 k (n - 1)) e2) e2
  else e1.

(** Contents of [dtx] after line 129. *)
Definition dtx_data (regression : string) (a0 a1 : float) (n : nat)
    (d : list float) : list float :=
  let t0 := (λ v, v - a0)%float <$> d in
  if decide (regression = "ct") then
    isub_data (Slice 0 1 n)
      ((λ t, a1 * of_int t)%float <$> np.arange 1 (Z.of_nat n + 1)) t0
  else t0.

(** [v[i, j]] for a two-dimensional array value in row-major order. *)
Definition entry (v : arrval) (i j : nat) : option float :=
  av_data v !! (i * nth 1 (av_shape v) 0 + j).

Section pipeline.
Variable sm : statsmodels.

(** Lines 109-114 without the allocation of [exog]. *)
Definition alpha_of (regression : string) (n : nat) : M float :=
  if decide (regression = "c") then
    q ← truediv (of_int 7) (Z.of_nat n); mret (of_int 1 - q)%float
  else
    q ← truediv 13.5%float (Z.of_nat n); mret (of_int 1 - q)%float.

(** Lines 124-138 on contents: [n] is the length of the series.  Only the
    shape of [dtx] matters to [correct_ct]. *)
Definition dfgls_tail (n : nat) (d : list float) (regression : string)
    (maxlag : option Z) (autolag : option string) (alpha : float)
  : M adfres :=
  let en := ArrVal [n; 1] (endog_data alpha n d) in
  let ex := ArrVal [n; ncols regression] (exog_data regression alpha n) in
  arc ← invoke (call_OLS en ex) (OLS sm en ex);
  a0 ← getitem arc 0;
  a1 ← (if decide (regression = "ct") then getitem arc 1 else mret a0);
  let v := ArrVal [n] (dtx_data regression a0 a1 n d) in
  res ← invoke (call_adfuller v "nc" maxlag autolag)
               (adfuller sm v "nc" maxlag autolag);
  if decide (regression = "ct") then correct_ct sm (NdArray 1%positive [n]) res
  else mret res.

(** [dfgls] on the contents [d] of [x]: the same checks, statsmodels calls
    and results, with every array replaced by its contents. *)
Definition dfgls_values (x : ndarray) (d : list float) (regression : string)
    (maxlag : option Z) (autolag : option string) : M adfres :=
  check_args x regression;;
  let n := prod_shape (shape x) in
  alpha ← alpha_of regression n;
  dfgls_tail n d regression maxlag autolag alpha.

End pipeline.

(** * [dfgls] and [dfgls_values] agree *)

(** Same outcome, same calls, and the buffers of [h0] are still there,
    unchanged. *)
Definition agrees {A} (h0 : gmap loc (list float)) (r1 r2 : outcome A * state)
  : Prop :=
  r1.1 = r2.1 ∧ calls r1.2 = calls r2.2 ∧ h0 ⊆ heap r1.2.

(** * Inputs and what [dfgls] does on them *)

(** The array [x] holds the series [d]. *)
Definition holds (s : state) (x : ndarray) (d : list float) : Prop :=
  heap s !! base x = Some d ∧ length d = prod_shape (shape x).

(** The shapes that pass the test of line 103. *)
Definition series_shape (x : ndarray) : Prop :=
  ¬ (2 < ndim x ∨ (ndim x = 2 ∧ dim x 1 ≠ 1)).

Definition is_adfuller_call (c : call) : bool :=
  match c with call_adfuller _ _ _ _ => true | _ => false end.

(** * A small run *)

Definition demo_series : list float := [1; 2; 4; 8]%float.
Definition demo_x : ndarray := NdArray 5%positive [4; 1].
Definition demo_state : state := State {[ 5%positive := demo_series ]} [].

(** Stand-ins for statsmodels: fixed coefficients, a result that uses
    [len(x) - usedlag - 1] observations and carries [icbest] when [autolag]
    is given, and a critical-value surface that depends on [nobs].  In this
    namespace [mackinnoncrit] and [mackinnonp] have been bound. *)
Definition demo_sm : statsmodels :=
  StatsModels
    (λ endog exog, Return [0.5; 0.25]%float)
    (λ x regression maxlag autolag,
       Return (AdfRes (-2.5) 0.125 1 (Z.of_nat (length (av_data x)) - 1 - 1)
                 (cv_dict (-2.5) (-1.875) (-1.625))
                 (match autolag with Some _ => Some 7%float | None => None end)))
    (λ N regression nobs,
       Return [(-3.5) - 2 / of_int nobs; (-2.75) - 1 / of_int nobs;
               (-2.5) - 1 / of_int nobs]%float)
    (λ teststat regression N, Return 0.0625%float).

(** The adjusted series of the small run with ['ct']. *)
Definition demo_adjusted : arrval := ArrVal [4] [0.25; 1; 2.75; 6.5]%float.

(** Another place for the same series: another buffer, other arrays around
    it and earlier calls in the log. *)
Definition demo_x' : ndarray := NdArray 9%positive [4; 1].
Definition demo_state' : state :=
  State (<[9%positive := demo_series]> {[ 2%positive := [0.5]%float ]})
        [call_mackinnonp 0.5 "c" 1].

(** * Failures, and what a run hands on *)

(** The calls a run started in [s] added to the log. *)
Definition new_calls (s : state) (r : outcome adfres * state) : list call :=
  drop (length (calls s)) (calls r.2).


(** Two outcomes of [adfuller] that differ at most in [pvalue],
    [critvalues] and [icbest]. *)
Definition same_statistic (o1 o2 : outcome adfres) : Prop :=
  match o1, o2 with
  | Return a1, Return a2 =>
      adfstat a1 = adfstat a2 ∧ usedlag a1 = usedlag a2 ∧ nobs a1 = nobs a2
  | Raise e1, Raise e2 => e1 = e2
  | _, _ => False
  end.

(** ** The runs of lines 124-138, case by case *)

Section tail_run.
Variable sm : statsmodels.
Variables (n : nat) (d : list float) (regression : string).
Variables (maxlag : option Z) (autolag : option string) (alpha : float).

Let en := ArrVal [n; 1] (endog_data alpha n d).
Let ex := ArrVal [n; ncols regression] (exog_data regression alpha n).
Let c_OLS := call_OLS en ex.
Let adjusted (a0 a1 : float) := ArrVal [n] (dtx_data regression a0 a1 n d).
Let c_adf (a0 a1 : float) :=
  call_adfuller (adjusted a0 a1) "nc" maxlag autolag.
Let c_crit := call_mackinnoncrit 1 "c" (Z.of_nat n).
Let c_p (a : adfres) := call_mackinnonp (adfstat a) "c" 1.

(** [tail_run o l]: lines 124-138 end with outcome [o] after the calls [l].
    One constructor for each place where they can stop. *)
Inductive tail_run : outcome adfres → list call → Prop :=
| tail_OLS_raises e :
    OLS sm en ex = Raise e →
    tail_run (Raise e) [c_OLS]
| tail_arc_short arc :
    OLS sm en ex = Return arc →
    arc !! 0 = None ∨ (regression = "ct" ∧ arc !! 1 = None) →
    tail_run (Raise IndexError) [c_OLS]
| tail_adfuller_raises arc a0 a1 e :
    OLS sm en ex = Return arc → arc !! 0 = Some a0 →
    (if decide (regression = "ct") then arc !! 1 = Some a1 else a1 = a0) →
    adfuller sm (adjusted a0 a1) "nc" maxlag autolag = Raise e →
    tail_run (Raise e) [c_OLS; c_adf a0 a1]
| tail_returns_other arc a0 a1 a :
    OLS sm en ex = Return arc → arc !! 0 = Some a0 →
    (if decide (regression = "ct") then arc !! 1 = Some a1 else a1 = a0) →
    adfuller sm (adjusted a0 a1) "nc" maxlag autolag = Return a →
    regression ≠ "ct" →
    tail_run (Return a) [c_OLS; c_adf a0 a1]
| tail_mackinnoncrit_unbound arc a0 a1 a :
    OLS sm en ex = Return arc → arc !! 0 = Some a0 → arc !! 1 = Some a1 →
    adfuller sm (adjusted a0 a1) "nc" maxlag autolag = Return a →
    regression = "ct" →
    mackinnoncrit_global sm = None →
    tail_run (Raise (NameError "mackinnoncrit")) [c_OLS; c_adf a0 a1]
| tail_mackinnoncrit_raises arc a0 a1 a e :
    OLS sm en ex = Return arc → arc !! 0 = Some a0 → arc !! 1 = Some a1 →
    adfuller sm (adjusted a0 a1) "nc" maxlag autolag = Return a →
    regression = "ct" →
    is_Some (mackinnoncrit_global sm) →
    mackinnoncrit sm 1 "c" (Z.of_nat n) = Raise e →
    tail_run (Raise e) [c_OLS; c_adf a0 a1; c_crit]
| tail_mackinnonp_unbound arc a0 a1 a cvs :
    OLS sm en ex = Return arc → arc !! 0 = Some a0 → arc !! 1 = Some a1 →
    adfuller sm (adjusted a0 a1) "nc" maxlag autolag = Return a →
    regression = "ct" →
    mackinnoncrit sm 1 "c" (Z.of_nat n) = Return cvs →
    mackinnonp_global sm = None →
    tail_run (Raise (NameError "mackinnonp")) [c_OLS; c_adf a0 a1; c_crit]
| tail_mackinnonp_raises arc a0 a1 a cvs e :
    OLS sm en ex = Return arc → arc !! 0 = Some a0 → arc !! 1 = Some a1 →
    adfuller sm (adjusted a0 a1) "nc" maxlag autolag = Return a →
    regression = "ct" →
    mackinnoncrit sm 1 "c" (Z.of_nat n) = Return cvs →
    is_Some (mackinnonp_global sm) →
    mackinnonp sm (adfstat a) "c" 1 = Raise e →
    tail_run (Raise e) [c_OLS; c_adf a0 a1; c_crit; c_p a]
| tail_cvs_short arc a0 a1 a cvs p :
    OLS sm en ex = Return arc → arc !! 0 = Some a0 → arc !! 1 = Some a1 →
    adfuller sm (adjusted a0 a1) "nc" maxlag autolag = Return a →
    regression = "ct" →
    mackinnoncrit sm 1 "c" (Z.of_nat n) = Return cvs →
    mackinnonp sm (adfstat a) "c" 1 = Return p →
    length cvs < 3 →
    tail_run (Raise IndexError) [c_OLS; c_adf a0 a1; c_crit; c_p a]
| tail_returns_ct arc a0 a1 a cvs p cv1 cv5 cv10 :
    OLS sm en ex = Return arc → arc !! 0 = Some a0 → arc !! 1 = Some a1 →
    adfuller sm (adjusted a0 a1) "nc" maxlag autolag = Return a →
    regression = "ct" →
    mackinnoncrit sm 1 "c" (Z.of_nat n) = Return cvs →
    mackinnonp sm (adfstat a) "c" 1 = Return p →
    cvs !! 0 = Some cv1 → cvs !! 1 = Some cv5 → cvs !! 2 = Some cv10 →
    tail_run
      (Return (AdfRes (adfstat a) p (usedlag a) (nobs a)
                 (cv_dict cv1 cv5 cv10) None))
      [c_OLS; c_adf a0 a1; c_crit; c_p a].

End tail_run.

(** ** [_print_res] *)

(** [print] on its arguments: the line written, without its newline. *)
Definition py_print (args : list string) : string := String.concat " " args.

(** [d[k]] on a dictionary. *)
Definition dict_getitem (d : gmap string float) (k : string) : outcome float :=
  match d !! k with
  | Some v => Return v
  | None => Raise (OtherError "KeyError")
  end.

Section print_res.
(** ["{0:0.5f}".format] on a float, and the value of [time.time()] on
    line 149. *)
Variable format_5f : float → string.
Variable now : float.

(** Lines 142-149: the outcome and the lines written before it. *)
Definition _print_res (res : adfres) (st : float) : outcome unit * list string :=
  let line1 :=
    py_print ["  dfgls-stat ="; format_5f (adfstat res); " pval =";
              format_5f (pvalue res); " arlags = " +:+ pretty (usedlag res);
              " nobs = " +:+ pretty (nobs res)] in
  match dict_getitem (critvalues res) "1%" with
  | Raise e => (Raise e, [line1])
  | Return cv1 =>
    match dict_getitem (critvalues res) "5%" with
    | Raise e => (Raise e, [line1])
    | Return cv5 =>
      match dict_getitem (critvalues res) "10%" with
      | Raise e => (Raise e, [line1])
      | Return cv10 =>
        let line2 :=
          py_print ["    cvdict = '1%': " +:+ format_5f cv1;
                    " '5%': " +:+ format_5f cv5;
                    " '10%': " +:+ format_5f cv10] in
        let line3 := py_print ["    time ="; format_5f (now - st)%float] in
        (Return tt, [line1; line2; line3])
      end
    end
  end.

End print_res.

(** ** More stand-ins *)

(** As [demo_sm], with another [pvalue], other [critvalues] (one key only)
    and no [icbest] from [adfuller]. *)
Definition demo_sm' : statsmodels :=
  StatsModels (OLS demo_sm)
    (λ x regression maxlag autolag,
       Return (AdfRes (-2.5) 0.75 1 (Z.of_nat (length (av_data x)) - 1 - 1)
                 {[ "1%" := (-9)%float ]} None))
    (mackinnoncrit demo_sm) (mackinnonp demo_sm).

(** The namespace of [dfgls.py] as it is, with the [OLS] and [adfuller] of
    [demo_sm]: nothing binds [mackinnoncrit] and [mackinnonp]. *)
Definition demo_module : statsmodels :=
  module_globals (OLS demo_sm) (adfuller demo_sm).

(** A statsmodels whose [adfuller] raises. *)
Definition demo_sm_adf_fails : statsmodels :=
  StatsModels (OLS demo_sm)
    (λ x regression maxlag autolag,
       Raise (ValueError "maxlag should be < nobs"))
    (mackinnoncrit demo_sm) (mackinnonp demo_sm).

(** The same series as a one-dimensional array. *)
Definition demo_x1 : ndarray := NdArray 5%positive [4].

(** A formatter for the small runs: the sign only. *)
Definition demo_format (f : float) : string :=
  if PrimFloat.ltb f 0 then "-" else "+".

(** * Proofs *)

(** * Selections of a buffer *)

Section slices.
Implicit Types (sl : slice) (d rhs : list float) (i k : nat).

Lemma slice_pos_in sl i :
  0 < step sl → i < len sl → slice_pos sl (off sl + i * step sl) = Some i.
Proof.
  intros Hstep Hi. unfold slice_pos.
  replace (off sl + i * step sl - off sl) with (i * step sl) by lia.
  rewrite Nat.Div0.mod_mul, Nat.div_mul by lia.
  rewrite decide_True; [done | lia].
Qed.

Lemma slice_pos_before sl k : k < off sl → slice_pos sl k = None.
Proof. intros Hk. unfold slice_pos. rewrite decide_False; [done | lia]. Qed.

Lemma slice_pos_between sl k :
  (k - off sl) `mod` step sl ≠ 0 → slice_pos sl k = None.
Proof. intros Hk. unfold slice_pos. rewrite decide_False; [done | tauto]. Qed.

Lemma length_scatter sl f d : length (scatter sl f d) = length d.
Proof. unfold scatter. apply length_imap. Qed.

Lemma lookup_scatter sl f d k :
  scatter sl f d !! k
  = (λ old, match slice_pos sl k with Some i => f i old | None => old end)
      <$> d !! k.
Proof. unfold scatter. apply list_lookup_imap. Qed.

Lemma lookup_scatter_in sl f d i x :
  0 < step sl → i < len sl → d !! (off sl + i * step sl) = Some x →
  scatter sl f d !! (off sl + i * step sl) = Some (f i x).
Proof.
  intros Hstep Hi Hx. rewrite lookup_scatter, Hx. simpl.
  by rewrite slice_pos_in.
Qed.

Lemma lookup_scatter_out sl f d k :
  slice_pos sl k = None → scatter sl f d !! k = d !! k.
Proof.
  intros Hk. rewrite lookup_scatter, Hk. by destruct (d !! k).
Qed.

Lemma omap_seq_total {A} (g : nat → option A) (a n : nat) :
  (∀ j, j < n → is_Some (g (a + j))) →
  length (omap g (seq a n)) = n ∧
  ∀ i, i < n → omap g (seq a n) !! i = g (a + i).
Proof.
  revert a. induction n as [|n IH]; intros a Hg; [split; [done | lia] |].
  destruct (Hg 0) as [y Hy]; [lia |]. rewrite Nat.add_0_r in Hy.
  destruct (IH (S a)) as [Hlen Hlook].
  { intros j Hj. replace (S a + j) with (a + S j) by lia. apply Hg. lia. }
  change (omap g (seq a (S n)))
    with (match g a with
          | Some y => y :: omap g (seq (S a) n)
          | None => omap g (seq (S a) n)
          end).
  rewrite Hy. split; [simpl; by rewrite Hlen |].
  intros [|i] Hi.
  - by rewrite Nat.add_0_r.
  - change ((y :: omap g (seq (S a) n)) !! S i)
      with (omap g (seq (S a) n) !! i).
    rewrite Hlook by lia. f_equal. lia.
Qed.

Lemma length_gather sl d :
  (∀ j, j < len sl → off sl + j * step sl < length d) →
  length (gather sl d) = len sl.
Proof.
  intros Hin. unfold gather.
  apply (omap_seq_total (λ i, d !! (off sl + i * step sl)) 0).
  intros j Hj. apply lookup_lt_is_Some_2. simpl. by apply Hin.
Qed.

Lemma lookup_gather sl d i :
  (∀ j, j < len sl → off sl + j * step sl < length d) → i < len sl →
  gather sl d !! i = d !! (off sl + i * step sl).
Proof.
  intros Hin Hi. unfold gather.
  destruct (omap_seq_total (λ i, d !! (off sl + i * step sl)) 0 (len sl))
    as [_ Hlook].
  { intros j Hj. apply lookup_lt_is_Some_2. simpl. by apply Hin. }
  by rewrite Hlook.
Qed.

Lemma length_isub_data sl rhs d : length (isub_data sl rhs d) = length d.
Proof. apply length_scatter. Qed.
Lemma length_assign_data sl rhs d : length (assign_data sl rhs d) = length d.
Proof. apply length_scatter. Qed.
Lemma length_isub_scalar_data sl c d :
  length (isub_scalar_data sl c d) = length d.
Proof. apply length_scatter. Qed.

Lemma length_arange (a b : Z) : length (np.arange a b) = Z.to_nat (b - a).
Proof. unfold np.arange. by rewrite length_fmap, length_seq. Qed.

Lemma lookup_arange (a b : Z) i :
  i < Z.to_nat (b - a) → np.arange a b !! i = Some (a + Z.of_nat i)%Z.
Proof.
  intros Hi. unfold np.arange.
  by rewrite list_lookup_fmap, lookup_seq_lt.
Qed.

End slices.

Section contents.
Implicit Types (d : list float) (n i : nat) (alpha : float).

Lemma lookup_scatter_at sl f d k i x :
  0 < step sl → i < len sl → k = off sl + i * step sl → d !! k = Some x →
  scatter sl f d !! k = Some (f i x).
Proof. intros ?? -> ?. by apply lookup_scatter_in. Qed.

Lemma endog_data_length alpha n d :
  length (endog_data alpha n d) = length d.
Proof. apply length_isub_data. Qed.

Lemma endog_data_first alpha n d : endog_data alpha n d !! 0 = d !! 0.
Proof.
  unfold endog_data, isub_data. apply lookup_scatter_out, slice_pos_before.
  simpl. lia.
Qed.

Lemma endog_data_next alpha n d i xi xp :
  length d = n → (1 ≤ i)%nat → d !! i = Some xi → d !! (i - 1) = Some xp →
  endog_data alpha n d !! i = Some (xi - alpha * xp)%float.
Proof.
  intros Hlen Hi Hxi Hxp. pose proof (lookup_lt_Some _ _ _ Hxi) as Hin.
  unfold endog_data, isub_data.
  rewrite (lookup_scatter_at _ _ _ i (i - 1) xi); simpl; [| lia ..| done].
  rewrite list_lookup_fmap, lookup_gather; simpl; [| lia ..].
  by rewrite Nat.mul_1_r, Hxp.
Qed.

Lemma exog_data_length regression alpha n :
  length (exog_data regression alpha n) = n * ncols regression.
Proof.
  unfold exog_data. case_decide.
  - rewrite length_isub_data, length_assign_data, length_isub_scalar_data,
      length_replicate. simpl. lia.
  - rewrite length_isub_scalar_data, length_replicate. simpl. lia.
Qed.

(** First column of [exog]. *)
Lemma exog_data_col0 regression alpha n i :
  regression ∈ ["c"; "ct"] → i < n →
  exog_data regression alpha n !! (i * ncols regression + 0)
  = Some (if decide (i = 0) then 1%float else (1 - alpha)%float).
Proof.
  intros Hr Hi. unfold exog_data.
  set (k := ncols regression).
  assert (1 ≤ k ≤ 2)%nat as Hk by (unfold k, ncols; case_decide; lia).
  set (e1 := isub_scalar_data _ _ _).
  assert (e1 !! (i * k + 0)
          = Some (if decide (i = 0) then 1%float else (1 - alpha)%float)) as He1.
  { unfold e1, isub_scalar_data. case_decide as Hi0.
    - subst i.
      rewrite lookup_scatter_out by (apply slice_pos_before; simpl; lia).
      apply lookup_replicate_2. simpl. lia.
    - rewrite (lookup_scatter_at _ _ _ _ (i - 1) 1%float);
        cbn [off step len].
      + done.
      + lia.
      + lia.
      + nia.
      + apply lookup_replicate_2. simpl. nia. }
  destruct (decide (regression = "ct")) as [Hct|]; [| done].
  assert (k = 2) as Hk2.
  { unfold k, ncols. subst regression. by rewrite decide_False. }
  assert (slice_pos (Slice (k + 1) k (n - 1)) (i * k + 0) = None) as Hout.
  { rewrite Hk2. destruct (decide (i * 2 + 0 < 2 + 1)) as [Hlt | Hge].
    - apply slice_pos_before. simpl. lia.
    - apply slice_pos_between. cbn [off step].
      replace (i * 2 + 0 - (2 + 1)) with (1 + (i - 2) * 2) by lia.
      by rewrite Nat.Div0.mod_add. }
  unfold isub_data, assign_data. by rewrite !lookup_scatter_out.
Qed.

(** Second column of [exog] for ['ct']. *)
Lemma exog_data_col1 alpha n i :
  i < n →
  exog_data "ct" alpha n !! (i * 2 + 1)
  = Some (if decide (i = 0) then 1%float
          else (of_int (Z.of_nat (i + 1)) - alpha * of_int (Z.of_nat i))%float).
Proof.
  intros Hi. unfold exog_data. change (ncols "ct") with 2.
  rewrite decide_True by done. cbv zeta.
  set (e1 := isub_scalar_data _ _ _).
  assert (length e1 = n * 2) as Hlen1.
  { unfold e1. rewrite length_isub_scalar_data, length_replicate. simpl. lia. }
  set (e2 := assign_data _ _ e1).
  assert (length e2 = n * 2) as Hlen2.
  { unfold e2. by rewrite length_assign_data. }
  assert (0 < n → e2 !! 1 = Some 1%float) as He2_first.
  { intros Hn. unfold e2, e1, assign_data, isub_scalar_data.
    rewrite !lookup_scatter_out by (apply slice_pos_before; simpl; lia).
    apply lookup_replicate_2. simpl. lia. }
  assert (∀ j, (1 ≤ j < n)%nat →
            e2 !! (j * 2 + 1) = Some (of_int (Z.of_nat (j + 1)))) as He2.
  { intros j Hj. destruct (lookup_lt_is_Some_2 e1 (j * 2 + 1)) as [y Hy]; [lia |].
    unfold e2, assign_data.
    rewrite (lookup_scatter_at _ _ _ _ (j - 1) y); simpl; [| lia ..| done].
    rewrite list_lookup_fmap, lookup_arange by lia. simpl.
    do 2 f_equal. lia. }
  case_decide as Hi0.
  { subst i. unfold isub_data.
    rewrite lookup_scatter_out by (apply slice_pos_before; simpl; lia).
    by apply He2_first. }
  unfold isub_data.
  rewrite (lookup_scatter_at _ _ _ _ (i - 1) (of_int (Z.of_nat (i + 1))));
    cbn [off step len]; [| lia | lia | lia | apply He2; lia].
  rewrite list_lookup_fmap, lookup_gather; cbn [off step len]; [| lia ..].
  destruct (decide (i = 1)) as [-> | Hi1].
  - change (1 + (1 - 1) * 2) with 1. by rewrite He2_first by lia.
  - replace (1 + (i - 1) * 2) with ((i - 1) * 2 + 1) by lia.
    rewrite He2 by lia. simpl. do 4 f_equal. lia.
Qed.

Lemma dtx_data_length regression a0 a1 n d :
  length (dtx_data regression a0 a1 n d) = length d.
Proof.
  unfold dtx_data. case_decide.
  - by rewrite length_isub_data, length_fmap.
  - by rewrite length_fmap.
Qed.

Lemma dtx_data_c regression a0 a1 n d i xi :
  regression ≠ "ct" → d !! i = Some xi →
  dtx_data regression a0 a1 n d !! i = Some (xi - a0)%float.
Proof.
  intros Hr Hxi. unfold dtx_data. rewrite decide_False by done.
  by rewrite list_lookup_fmap, Hxi.
Qed.

Lemma dtx_data_ct a0 a1 n d i xi :
  length d = n → d !! i = Some xi →
  dtx_data "ct" a0 a1 n d !! i
  = Some (xi - a0 - a1 * of_int (Z.of_nat (i + 1)))%float.
Proof.
  intros Hlen Hxi. pose proof (lookup_lt_Some _ _ _ Hxi) as Hin.
  unfold dtx_data. rewrite decide_True by done. unfold isub_data.
  rewrite (lookup_scatter_at _ _ _ i i (xi - a0)%float);
    simpl; [| lia | lia | lia | by rewrite list_lookup_fmap, Hxi].
  rewrite list_lookup_fmap, lookup_arange by lia. simpl.
  do 4 f_equal. lia.
Qed.

End contents.

(** * Running the blocks of [dfgls] *)

Lemma run_bind {A B} (m : M A) (k : A → M B) (s : state) :
  (m ≫= k) s
  = match m s with
    | (Return a, s') => k a s'
    | (Raise e, s') => (Raise e, s')
    end.
Proof. reflexivity. Qed.

Lemma run_ret {A} (a : A) (s : state) : (mret a : M A) s = (Return a, s).
Proof. reflexivity. Qed.

Lemma run_getitem {A} (l : list A) (i : nat) (a : A) (s : state) :
  l !! i = Some a → getitem l i s = (Return a, s).
Proof. intros Hl. unfold getitem. by rewrite Hl. Qed.

Lemma run_getitem_None {A} (l : list A) (i : nat) (s : state) :
  l !! i = None → getitem l i s = (Raise IndexError, s).
Proof. intros Hl. unfold getitem. by rewrite Hl. Qed.

Lemma run_invoke {A} (c : call) (r : outcome A) (s : state) :
  invoke c r s = (r, State (heap s) (calls s ++ [c])).
Proof. reflexivity. Qed.

Lemma fresh_lookup (h : gmap loc (list float)) : h !! fresh (dom h) = None.
Proof. apply not_elem_of_dom, is_fresh. Qed.

Lemma fresh_ne (h : gmap loc (list float)) (l : loc) (d : list float) :
  h !! l = Some d → l ≠ fresh (dom h).
Proof. intros Hl ->. by rewrite fresh_lookup in Hl. Qed.

Lemma subseteq_alloc (h0 h : gmap loc (list float)) (d : list float) :
  h0 ⊆ h → h0 ⊆ <[fresh (dom h) := d]> h.
Proof.
  intros Hsub. apply insert_subseteq_r; [| done].
  eapply lookup_weaken_None; [apply fresh_lookup | done].
Qed.

Section blocks.
Variable sm : statsmodels.
Implicit Types (s : state) (d : list float) (n : nat) (x : ndarray).

Lemma run_init_alpha_exog b n regression s :
  init_alpha_exog (NdArray b [n; 1]) regression s
  = match alpha_of regression n s with
    | (Return alpha, _) =>
        let l := fresh (dom (heap s)) in
        (Return (alpha, NdArray l [n; ncols regression]),
         State (<[l := replicate (prod_shape [n; ncols regression]) 1%float]>
                  (heap s)) (calls s))
    | (Raise e, _) => (Raise e, s)
    end.
Proof.
  unfold init_alpha_exog, alpha_of, ncols, truediv, dim. simpl nth.
  by repeat case_decide.
Qed.

Lemma run_setup_endog x alpha n d s :
  shape x = [n; 1] → heap s !! base x = Some d → length d = n →
  setup_endog x alpha s
  = let l := fresh (dom (heap s)) in
    (Return (NdArray l [n; 1]),
     State (<[l := endog_data alpha n d]> (heap s)) (calls s)).
Proof.
  intros Hsh Hx Hlen.
  unfold setup_endog, np.copy, np.get, np.isub, np.rows_to_last,
    np.rows_from1, dim, load, alloc, store.
  rewrite Hsh. unfold mbind, M_bind, mret, M_ret. simpl.
  rewrite Hx. simpl. rewrite lookup_insert_eq. simpl.
  rewrite decide_True.
  2:{ rewrite length_fmap, length_gather; [done |]. simpl. intros j Hj. lia. }
  simpl. rewrite lookup_insert_eq, insert_insert_eq. done.
Qed.

Lemma run_setup_exog x exog alpha n regression s :
  shape x = [n; 1] → shape exog = [n; ncols regression] →
  regression ∈ ["c"; "ct"] →
  heap s !! base exog
    = Some (replicate (prod_shape [n; ncols regression]) 1%float) →
  setup_exog x exog regression alpha s
  = (Return tt,
     State (<[base exog := exog_data regression alpha n]> (heap s)) (calls s)).
Proof.
  intros Hx Hsh Hr Hex.
  unfold setup_exog, np.isub_scalar, np.assign, np.get, np.isub,
    np.col_from1, np.col_to_last, dim, load, store, exog_data.
  rewrite Hx, Hsh. unfold mbind, M_bind, mret, M_ret. simpl.
  rewrite Hex. simpl.
  case_decide as Hct; [| done]. subst regression.
  change (ncols "ct") with 2.
  rewrite decide_True.
  2:{ rewrite length_fmap, length_arange. lia. }
  simpl. rewrite !lookup_insert_eq. simpl.
  rewrite decide_True.
  2:{ rewrite length_fmap, length_gather; [done |]. intros j Hj.
      rewrite length_assign_data, length_isub_scalar_data, length_replicate.
      simpl in *. lia. }
  simpl. rewrite !lookup_insert_eq, !insert_insert_eq. done.
Qed.

Lemma run_run_OLS endog exog de dx s :
  heap s !! base endog = Some de → heap s !! base exog = Some dx →
  run_OLS sm endog exog s
  = invoke (call_OLS (ArrVal (shape endog) de) (ArrVal (shape exog) dx))
      (OLS sm (ArrVal (shape endog) de) (ArrVal (shape exog) dx)) s.
Proof.
  intros Hen Hex. unfold run_OLS, np.value, load.
  unfold mbind, M_bind, mret, M_ret. simpl. by rewrite Hen, Hex.
Qed.

Lemma run_run_adfuller dtx dd maxlag autolag s :
  heap s !! base dtx = Some dd →
  run_adfuller sm dtx maxlag autolag s
  = invoke (call_adfuller (ArrVal (shape dtx) dd) "nc" maxlag autolag)
      (adfuller sm (ArrVal (shape dtx) dd) "nc" maxlag autolag) s.
Proof.
  intros Hd. unfold run_adfuller, np.value, load.
  unfold mbind, M_bind, mret, M_ret. simpl. by rewrite Hd.
Qed.

(** [detrend] writes only into buffers it allocates. *)
Lemma run_detrend x regression arc n d s :
  shape x = [n; 1] → heap s !! base x = Some d → length d = n →
  ∃ o s',
    detrend x regression arc s = (o, s') ∧
    heap s ⊆ heap s' ∧ calls s' = calls s ∧
    match o with
    | Return dtx =>
        ∃ a0 a1, arc !! 0 = Some a0 ∧
          (if decide (regression = "ct") then arc !! 1 = Some a1
           else a1 = a0) ∧
          shape dtx = [n] ∧
          heap s' !! base dtx = Some (dtx_data regression a0 a1 n d)
    | Raise e =>
        e = IndexError ∧
        (arc !! 0 = None ∨ (regression = "ct" ∧ arc !! 1 = None))
    end.
Proof.
  intros Hsh Hx Hlen.
  unfold detrend, np.reshape, np.copy, np.sub_scalar, np.isub, np.whole,
    getitem, dim, load, alloc, store, dtx_data.
  rewrite Hsh. simpl.
  rewrite decide_True by lia.
  unfold mbind, M_bind, mret, M_ret. simpl. rewrite Hx. simpl.
  assert (heap s ⊆ <[fresh (dom (heap s)) := d]> (heap s)) as Hh1
    by by apply subseteq_alloc.
  destruct (arc !! 0) as [a0|] eqn:Ha0; simpl.
  2:{ eexists _, _. split; [done |]. simpl. auto. }
  rewrite lookup_insert_eq. simpl.
  set (h1 := <[fresh (dom (heap s)) := d]> (heap s)) in *.
  set (t0 := (λ v, (v - a0)%float) <$> d).
  assert (heap s ⊆ <[fresh (dom h1) := t0]> h1) as Hh2
    by by apply subseteq_alloc.
  case_decide as Hct; simpl.
  2:{ eexists _, _. split; [done |]. simpl. split; [done |]. split; [done |].
      exists a0, a0. by rewrite lookup_insert_eq. }
  destruct (arc !! 1) as [a1|] eqn:Ha1; simpl.
  2:{ eexists _, _. split; [done |]. simpl. split; [done |]. auto. }
  rewrite decide_True.
  2:{ rewrite length_fmap, length_arange. lia. }
  simpl. rewrite lookup_insert_eq, insert_insert_eq. simpl.
  eexists _, _. split; [done |]. simpl. split; [by apply subseteq_alloc |].
  split; [done |]. exists a0, a1. by rewrite lookup_insert_eq.
Qed.

Lemma check_args_state x regression s : (check_args x regression s).2 = s.
Proof.
  unfold check_args, raise. unfold mbind, M_bind, mret, M_ret.
  by repeat case_decide.
Qed.

Lemma check_args_Return x regression s s' :
  check_args x regression s = (Return tt, s') →
  regression ∈ ["c"; "ct"] ∧ ¬ (2 < ndim x ∨ (ndim x = 2 ∧ dim x 1 ≠ 1)).
Proof.
  unfold check_args, raise. unfold mbind, M_bind, mret, M_ret.
  repeat case_decide; try done.
Qed.

Lemma alpha_of_state regression n s : (alpha_of regression n s).2 = s.
Proof.
  unfold alpha_of, truediv, raise. unfold mbind, M_bind, mret, M_ret.
  by repeat case_decide.
Qed.

End blocks.

Section refinement.
Variable sm : statsmodels.

Lemma correct_ct_agrees h0 a b res s1 s2 :
  shape a = shape b → calls s1 = calls s2 → h0 ⊆ heap s1 →
  agrees h0 (correct_ct sm a res s1) (correct_ct sm b res s2).
Proof.
  intros Hsh Hc Hh.
  unfold agrees, correct_ct, global_name, invoke, getitem, raise, dim.
  rewrite Hsh. unfold mbind, M_bind, mret, M_ret.
  destruct (mackinnoncrit_global sm) as [crit|]; [| done].
  simpl. rewrite Hc.
  destruct (crit _ _ _) as [cvs|e]; [| done].
  destruct (mackinnonp_global sm) as [pval|]; [| done]. simpl.
  destruct (pval _ _ _) as [p|e]; [| done].
  destruct (cvs !! 0); [| done]. destruct (cvs !! 1); [| done].
  by destruct (cvs !! 2).
Qed.

Lemma dfgls_agrees x d regression maxlag autolag s :
  heap s !! base x = Some d → length d = prod_shape (shape x) →
  agrees (heap s) (dfgls sm x regression maxlag autolag s)
    (dfgls_values sm x d regression maxlag autolag s).
Proof.
  intros Hx Hlen. unfold dfgls, dfgls_values, dfgls_tail.
  rewrite !(run_bind (check_args x regression)).
  pose proof (check_args_state x regression s) as Hcs.
  destruct (check_args x regression s) as [[[]|e] s0] eqn:Hc;
    simpl in Hcs; subst s0; [| done].
  apply check_args_Return in Hc as [Hr _].
  set (n := prod_shape (shape x)) in *.
  unfold np.reshape_column. fold n.
  rewrite (run_bind (mret _)). unfold mret at 1, M_ret at 1.
  rewrite (run_bind (init_alpha_exog _ _)), run_init_alpha_exog.
  rewrite (run_bind (alpha_of _ _)).
  pose proof (alpha_of_state regression n s) as Has.
  destruct (alpha_of regression n s) as [[alpha|e] s0] eqn:Ha;
    simpl in Has; subst s0; [| done].
  cbv zeta. cbv iota beta.
  set (l0 := fresh (dom (heap s))).
  set (ones := replicate (prod_shape [n; ncols regression]) 1%float).
  set (h1 := <[l0 := ones]> (heap s)).
  assert (base x ≠ l0) as Hx0 by by eapply fresh_ne.
  assert (h1 !! base x = Some d) as Hx1.
  { unfold h1. by rewrite lookup_insert_ne. }
  rewrite (run_bind (setup_endog _ _)).
  rewrite (run_setup_endog _ alpha n d) by done.
  cbv zeta. cbv iota beta. cbn [heap calls].
  set (l1 := fresh (dom h1)).
  set (h2 := <[l1 := endog_data alpha n d]> h1).
  assert (l0 ≠ l1) as H01.
  { eapply fresh_ne. unfold h1. apply lookup_insert_eq. }
  assert (base x ≠ l1) as Hx1' by by eapply fresh_ne.
  rewrite (run_bind (setup_exog _ _ _ _)).
  rewrite (run_setup_exog _ _ alpha n); [| done | done | done |].
  2:{ cbn [heap base]. unfold h2, h1.
      by rewrite lookup_insert_ne, lookup_insert_eq. }
  cbv iota beta. cbn [heap calls base].
  set (h3 := <[l0 := exog_data regression alpha n]> h2).
  assert (h3 !! base x = Some d) as Hx3.
  { unfold h3, h2. by rewrite !lookup_insert_ne. }
  assert (heap s ⊆ h3) as Hsub.
  { unfold h3, h2, h1. apply insert_subseteq_r; [apply fresh_lookup |].
    apply insert_subseteq_r.
    { eapply lookup_weaken_None; [apply fresh_lookup |].
      apply insert_subseteq, fresh_lookup. }
    apply insert_subseteq, fresh_lookup. }
  rewrite (run_bind (run_OLS _ _ _)).
  rewrite (run_run_OLS sm _ _ (endog_data alpha n d)
             (exog_data regression alpha n)).
  2:{ cbn [heap base]. unfold h3, h2.
      by rewrite lookup_insert_ne, lookup_insert_eq. }
  2:{ cbn [heap base]. unfold h3. by rewrite lookup_insert_eq. }
  cbn [shape].
  rewrite (run_bind (invoke _ _)), !run_invoke. cbn [heap calls].
  set (c1 := call_OLS _ _).
  destruct (OLS sm _ _) as [arc|e]; [| done].
  rewrite (run_bind (detrend _ _ _)).
  destruct (run_detrend {| base := base x; shape := [n; 1] |} regression arc
              n d (State h3 (calls s ++ [c1])))
    as (o & s4 & -> & Hsub4 & Hc4 & Ho); [done | done | done |].
  cbn [heap] in Hsub4.
  rewrite (run_bind (getitem _ _)).
  destruct o as [dtx|e].
  2:{ destruct Ho as [-> [Harc | [-> Harc]]]; unfold getitem; rewrite Harc.
      - split_and!; [done | done |]. by etrans.
      - destruct (arc !! 0); [| split_and!; [done | done | by etrans]].
        unfold mbind, M_bind, mret, M_ret, raise. simpl.
        split_and!; [done | done |]. by etrans. }
  destruct Ho as (a0 & a1 & Ha0 & Ha1 & Hsh & Hdtx).
  rewrite (run_getitem arc 0 a0) by done.
  rewrite (run_bind (if decide (regression = "ct") then _ else _)).
  assert ((if decide (regression = "ct") then getitem arc 1
           else (mret a0 : M float))
            (State (heap s) (calls s ++ [c1]))
          = (Return a1, State (heap s) (calls s ++ [c1]))) as ->.
  { case_decide; [by apply run_getitem | by subst a1]. }
  rewrite (run_bind (run_adfuller _ _ _ _)).
  rewrite (run_run_adfuller sm _ (dtx_data regression a0 a1 n d)) by done.
  rewrite (run_bind (invoke _ _)), !run_invoke, Hsh, Hc4. cbn [heap calls].
  destruct (adfuller sm _ _ _ _) as [res|e].
  2:{ split_and!; [done | done |]. by etrans. }
  case_decide.
  - apply correct_ct_agrees; [done | done |]. by etrans.
  - split_and!; [done | done |]. by etrans.
Qed.

End refinement.

Section behaviour.
Variable sm : statsmodels.
Implicit Types (s : state) (d : list float) (n : nat) (x : ndarray)
  (regression : string) (maxlag : option Z) (autolag : option string).

Lemma dfgls_outcome s x d regression maxlag autolag :
  holds s x d →
  (dfgls sm x regression maxlag autolag s).1
  = (dfgls_values sm x d regression maxlag autolag s).1.
Proof. intros [Hx Hlen]. by destruct (dfgls_agrees sm x d regression maxlag autolag s). Qed.

Lemma dfgls_calls s x d regression maxlag autolag :
  holds s x d →
  calls (dfgls sm x regression maxlag autolag s).2
  = calls (dfgls_values sm x d regression maxlag autolag s).2.
Proof.
  intros [Hx Hlen].
  by destruct (dfgls_agrees sm x d regression maxlag autolag s) as (? & ? & ?).
Qed.

Lemma dfgls_heap s x d regression maxlag autolag :
  holds s x d → heap s ⊆ heap (dfgls sm x regression maxlag autolag s).2.
Proof.
  intros [Hx Hlen].
  by destruct (dfgls_agrees sm x d regression maxlag autolag s) as (? & ? & ?).
Qed.

Lemma run_check_args_ok x regression s :
  regression ∈ ["c"; "ct"] → series_shape x →
  check_args x regression s = (Return tt, s).
Proof.
  intros Hr Hsh. unfold check_args, raise.
  unfold mbind, M_bind, mret, M_ret. by repeat case_decide.
Qed.

Lemma run_alpha_of regression n s :
  0 < n →
  alpha_of regression n s
  = (Return (if decide (regression = "c")
             then (of_int 1 - of_int 7 / of_int (Z.of_nat n))%float
             else (of_int 1 - 13.5 / of_int (Z.of_nat n))%float), s).
Proof.
  intros Hn. unfold alpha_of, truediv.
  unfold mbind, M_bind, mret, M_ret.
  repeat case_decide; try done; lia.
Qed.

Lemma run_alpha_of_zero regression s :
  alpha_of regression 0 s = (Raise ZeroDivisionError, s).
Proof.
  unfold alpha_of, truediv, raise. unfold mbind, M_bind, mret, M_ret.
  by repeat case_decide.
Qed.

Lemma dfgls_values_valid s x d regression maxlag autolag :
  regression ∈ ["c"; "ct"] → series_shape x → 0 < prod_shape (shape x) →
  dfgls_values sm x d regression maxlag autolag s
  = dfgls_tail sm (prod_shape (shape x)) d regression maxlag autolag
      (if decide (regression = "c")
       then (of_int 1 - of_int 7 / of_int (Z.of_nat (prod_shape (shape x))))%float
       else (of_int 1 - 13.5 / of_int (Z.of_nat (prod_shape (shape x))))%float)
      s.
Proof.
  intros Hr Hsh Hn. unfold dfgls_values.
  rewrite run_bind, run_check_args_ok by done.
  cbv zeta. by rewrite run_bind, run_alpha_of.
Qed.

Lemma correct_ct_Return dtx a res s :
  (correct_ct sm dtx a s).1 = Return res →
  ∃ cvs p cv1 cv5 cv10,
    mackinnoncrit sm 1 "c" (Z.of_nat (dim dtx 0)) = Return cvs ∧
    mackinnonp sm (adfstat a) "c" 1 = Return p ∧
    cvs !! 0 = Some cv1 ∧ cvs !! 1 = Some cv5 ∧ cvs !! 2 = Some cv10 ∧
    res = AdfRes (adfstat a) p (usedlag a) (nobs a) (cv_dict cv1 cv5 cv10)
            None ∧
    calls (correct_ct sm dtx a s).2
    = calls s ++ [call_mackinnoncrit 1 "c" (Z.of_nat (dim dtx 0));
                  call_mackinnonp (adfstat a) "c" 1].
Proof.
  unfold correct_ct, global_name, mackinnoncrit, mackinnonp, invoke, getitem,
    raise.
  unfold mbind, M_bind, mret, M_ret.
  destruct (mackinnoncrit_global sm) as [crit|]; [| done]. simpl.
  destruct (crit _ _ _) as [cvs|e]; [| done].
  destruct (mackinnonp_global sm) as [pval|]; [| done]. simpl.
  destruct (pval _ _ _) as [p|e]; [| done].
  destruct (cvs !! 0) as [cv1|] eqn:H1; [| done].
  destruct (cvs !! 1) as [cv5|] eqn:H5; [| done].
  destruct (cvs !! 2) as [cv10|] eqn:H10; [| done].
  simpl. intros [= <-]. exists cvs, p, cv1, cv5, cv10.
  rewrite <- app_assoc. done.
Qed.

(** The calls of [correct_ct], whatever its outcome. *)
Lemma correct_ct_calls dtx a s :
  ∃ tl, calls (correct_ct sm dtx a s).2 = calls s ++ tl ∧
        Forall (λ c, is_adfuller_call c = false) tl.
Proof.
  unfold correct_ct, global_name, invoke, getitem, raise.
  unfold mbind, M_bind, mret, M_ret.
  destruct (mackinnoncrit_global sm) as [crit|].
  2:{ exists []. simpl. by rewrite app_nil_r. }
  simpl. destruct (crit _ _ _) as [cvs|e].
  2:{ eexists. split; [done |]. by repeat constructor. }
  destruct (mackinnonp_global sm) as [pval|].
  2:{ eexists. split; [done |]. by repeat constructor. }
  simpl. destruct (pval _ _ _) as [p|e].
  2:{ eexists. simpl. rewrite <- app_assoc. split; [done |].
      by repeat constructor. }
  exists [call_mackinnoncrit 1 "c" (Z.of_nat (dim dtx 0));
          call_mackinnonp (adfstat a) "c" 1].
  split; [| by repeat constructor].
  destruct (cvs !! 0); [| by simpl; rewrite <- app_assoc].
  destruct (cvs !! 1); [| by simpl; rewrite <- app_assoc].
  destruct (cvs !! 2); by simpl; rewrite <- app_assoc.
Qed.

(** The first call of [dfgls_tail] is the auxiliary regression. *)
Lemma dfgls_tail_first_call n d regression maxlag autolag alpha s :
  ∃ tl,
    calls (dfgls_tail sm n d regression maxlag autolag alpha s).2
    = calls s ++
      call_OLS (ArrVal [n; 1] (endog_data alpha n d))
        (ArrVal [n; ncols regression] (exog_data regression alpha n)) :: tl.
Proof.
  unfold dfgls_tail. cbv zeta.
  rewrite run_bind, run_invoke.
  set (c1 := call_OLS _ _).
  destruct (OLS sm _ _) as [arc|e]; [| by exists []].
  rewrite run_bind. unfold getitem at 1.
  destruct (arc !! 0) as [a0|]; [| by exists []].
  rewrite run_ret, run_bind.
  assert (∃ o, (if decide (regression = "ct") then getitem arc 1
                else (mret a0 : M float))
                 (State (heap s) (calls s ++ [c1]))
               = (o, State (heap s) (calls s ++ [c1]))) as [o ->].
  { unfold getitem. case_decide; [| by eexists].
    destruct (arc !! 1); by eexists. }
  destruct o as [a1|e]; [| by exists []].
  rewrite run_bind, run_invoke. cbn [heap calls].
  set (c2 := call_adfuller _ _ _ _).
  destruct (adfuller sm _ _ _ _) as [a|e].
  2:{ exists [c2]. by rewrite <- app_assoc. }
  case_decide.
  - destruct (correct_ct_calls (NdArray 1%positive [n]) a
                (State (heap s) ((calls s ++ [c1]) ++ [c2])))
      as (tl & -> & _).
    exists (c2 :: tl). cbn [calls]. by rewrite <- !app_assoc.
  - exists [c2]. rewrite run_ret. cbn [calls]. by rewrite <- app_assoc.
Qed.

(** What a successful run of [dfgls_tail] went through. *)
Lemma dfgls_tail_Return n d regression maxlag autolag alpha s res :
  (dfgls_tail sm n d regression maxlag autolag alpha s).1 = Return res →
  let en := ArrVal [n; 1] (endog_data alpha n d) in
  let ex := ArrVal [n; ncols regression] (exog_data regression alpha n) in
  ∃ arc a0 a1 a tl,
    OLS sm en ex = Return arc ∧ arc !! 0 = Some a0 ∧
    (if decide (regression = "ct") then arc !! 1 = Some a1 else a1 = a0) ∧
    let v := ArrVal [n] (dtx_data regression a0 a1 n d) in
    adfuller sm v "nc" maxlag autolag = Return a ∧
    calls (dfgls_tail sm n d regression maxlag autolag alpha s).2
    = calls s ++ call_OLS en ex :: call_adfuller v "nc" maxlag autolag :: tl ∧
    if decide (regression = "ct") then
      ∃ s', (correct_ct sm (NdArray 1%positive [n]) a s').1 = Return res ∧
            calls (correct_ct sm (NdArray 1%positive [n]) a s').2
            = calls s' ++ tl
    else res = a ∧ tl = [].
Proof.
  destruct (dfgls_tail sm n d regression maxlag autolag alpha s)
    as [o s1] eqn:Hrun.
  cbn [fst snd]. intros ->. revert Hrun.
  unfold dfgls_tail. cbv zeta.
  rewrite run_bind, run_invoke.
  set (c1 := call_OLS _ _).
  destruct (OLS sm _ _) as [arc|e]; [| done].
  rewrite run_bind. unfold getitem at 1.
  destruct (arc !! 0) as [a0|] eqn:Ha0; [| done].
  rewrite run_ret, run_bind.
  destruct (decide (regression = "ct")) as [Hct|Hct].
  - unfold getitem at 1. destruct (arc !! 1) as [a1|] eqn:Ha1; [| done].
    rewrite run_ret, run_bind, run_invoke. cbn [heap calls].
    set (c2 := call_adfuller _ _ _ _).
    destruct (adfuller sm _ _ _ _) as [a|e] eqn:Ha; [| done].
    intros Hrun.
    assert ((correct_ct sm (NdArray 1%positive [n]) a
               (State (heap s) ((calls s ++ [c1]) ++ [c2]))).1 = Return res)
      as Hres by by rewrite Hrun.
    destruct (correct_ct_Return _ _ _ _ Hres)
      as (cvs & p & cv1 & cv5 & cv10 & _ & _ & _ & _ & _ & _ & Hcalls).
    rewrite Hrun in Hcalls. cbn [snd calls] in Hcalls.
    eexists arc, a0, a1, a, _.
    split_and!; [done | done | done | exact Ha | |].
    + rewrite Hcalls, <- !app_assoc. done.
    + eexists. split; [exact Hres |]. by rewrite Hrun.
  - rewrite run_ret, run_bind, run_invoke. cbn [heap calls].
    destruct (adfuller sm _ _ _ _) as [a|e] eqn:Ha; [| done].
    rewrite run_ret. intros [= <- <-].
    exists arc, a0, a0, a, [].
    split_and!; [done | done | done | exact Ha | | done | done].
    cbn [calls]. by rewrite <- app_assoc.
Qed.

End behaviour.

Section frames.
Variable sm : statsmodels.

Lemma correct_ct_frame dtx a s :
  correct_ct sm dtx a s
  = let r := correct_ct sm dtx a (State ∅ []) in
    (r.1, State (heap s) (calls s ++ calls r.2)).
Proof.
  unfold correct_ct, global_name, invoke, getitem, raise.
  unfold mbind, M_bind, mret, M_ret.
  destruct (mackinnoncrit_global sm) as [crit|];
    [| destruct s; simpl; by rewrite app_nil_r].
  simpl. destruct (crit _ _ _) as [cvs|e]; [| done].
  destruct (mackinnonp_global sm) as [pval|]; [| done].
  simpl. destruct (pval _ _ _) as [p|e]; simpl;
    [| by rewrite <- app_assoc].
  destruct (cvs !! 0); simpl; [| by rewrite <- app_assoc].
  destruct (cvs !! 1); simpl; [| by rewrite <- app_assoc].
  destruct (cvs !! 2); simpl; by rewrite <- app_assoc.
Qed.

(** The outcome and the calls of [dfgls_tail] do not depend on the state
    it starts from. *)
Lemma dfgls_tail_frame n d regression maxlag autolag alpha s :
  dfgls_tail sm n d regression maxlag autolag alpha s
  = let r := dfgls_tail sm n d regression maxlag autolag alpha (State ∅ []) in
    (r.1, State (heap s) (calls s ++ calls r.2)).
Proof.
  unfold dfgls_tail. cbv zeta.
  rewrite !(run_bind (invoke _ _)), !run_invoke. cbn [heap calls].
  set (c1 := call_OLS _ _).
  destruct (OLS sm _ _) as [arc|e]; [| reflexivity].
  rewrite !(run_bind (getitem arc 0)).
  destruct (arc !! 0) as [a0|] eqn:Ha0.
  2:{ by rewrite !(run_getitem_None arc 0). }
  rewrite !(run_getitem arc 0 a0) by done.
  rewrite !(run_bind (if decide (regression = "ct") then _ else _)).
  set (g := if decide (regression = "ct") then getitem arc 1
            else (mret a0 : M float)).
  assert (∃ o1, ∀ s0, g s0 = (o1, s0)) as [o1 Hget].
  { unfold g, getitem. case_decide; [destruct (arc !! 1) |]; by eexists. }
  rewrite (Hget (State (heap s) _)), (Hget (State ∅ _)).
  destruct o1 as [a1|e]; [| reflexivity].
  rewrite !(run_bind (invoke _ _)), !run_invoke. cbn [heap calls].
  set (c2 := call_adfuller _ _ _ _).
  destruct (adfuller sm _ _ _ _) as [a|e].
  2:{ cbn [fst snd calls]. by rewrite <- app_assoc. }
  case_decide.
  - rewrite (correct_ct_frame _ _ (State ∅ (([] ++ [c1]) ++ [c2]))).
    rewrite (correct_ct_frame _ _ (State (heap s) _)).
    cbn [fst snd heap calls]. simpl. by rewrite <- !app_assoc.
  - rewrite !run_ret. cbn [fst snd calls]. by rewrite <- app_assoc.
Qed.

Lemma dfgls_values_frame x1 x2 d regression maxlag autolag s :
  shape x1 = shape x2 →
  dfgls_values sm x1 d regression maxlag autolag s
  = let r := dfgls_values sm x2 d regression maxlag autolag (State ∅ []) in
    (r.1, State (heap s) (calls s ++ calls r.2)).
Proof.
  intros Hsh. unfold dfgls_values.
  rewrite !(run_bind (check_args _ _)).
  assert (∀ s0, check_args x1 regression s0
                = ((check_args x2 regression (State ∅ [])).1, s0)) as Hchk.
  { intros s0. unfold check_args, ndim, dim, raise. rewrite Hsh.
    unfold mbind, M_bind, mret, M_ret. by repeat case_decide. }
  rewrite Hchk.
  pose proof (check_args_state x2 regression (State ∅ [])) as Hst.
  destruct (check_args x2 regression (State ∅ [])) as [[[]|e] s0];
    cbn [fst snd] in *; subst s0;
    [| destruct s; cbn [fst snd heap calls]; by rewrite app_nil_r].
  cbv zeta. rewrite Hsh.
  rewrite !(run_bind (alpha_of _ _)).
  assert (∀ s0, alpha_of regression (prod_shape (shape x2)) s0
                = ((alpha_of regression (prod_shape (shape x2))
                      (State ∅ [])).1, s0)) as Halpha.
  { intros s0. unfold alpha_of, truediv, raise.
    unfold mbind, M_bind, mret, M_ret. by repeat case_decide. }
  rewrite (Halpha s), (Halpha (State ∅ [])).
  destruct (alpha_of regression (prod_shape (shape x2)) (State ∅ [])).1
    as [alpha|e]; cbn [fst snd];
    [| destruct s; cbn [heap calls]; by rewrite app_nil_r].
  apply dfgls_tail_frame.
Qed.

Lemma dfgls_values_Return x d regression maxlag autolag s res :
  (dfgls_values sm x d regression maxlag autolag s).1 = Return res →
  regression ∈ ["c"; "ct"] ∧ series_shape x ∧ 0 < prod_shape (shape x).
Proof.
  unfold dfgls_values. rewrite run_bind.
  pose proof (check_args_state x regression s) as Hst.
  destruct (check_args x regression s) as [[[]|e] s0] eqn:Hchk; [| done].
  cbn [snd] in Hst. subst s0.
  apply check_args_Return in Hchk as [Hr Hsh].
  cbv zeta. rewrite run_bind.
  destruct (prod_shape (shape x)) as [|n] eqn:Hn.
  - by rewrite run_alpha_of_zero.
  - intros _. split_and!; [done | done | lia].
Qed.

(** With an auxiliary regression that returns enough coefficients, the
    second call is [adfuller] on the adjusted series. *)
Lemma dfgls_tail_second_call n d regression maxlag autolag alpha s arc a0 a1 :
  let en := ArrVal [n; 1] (endog_data alpha n d) in
  let ex := ArrVal [n; ncols regression] (exog_data regression alpha n) in
  OLS sm en ex = Return arc → arc !! 0 = Some a0 →
  (if decide (regression = "ct") then arc !! 1 = Some a1 else a1 = a0) →
  ∃ tl,
    calls (dfgls_tail sm n d regression maxlag autolag alpha s).2
    = calls s ++ call_OLS en ex ::
        call_adfuller (ArrVal [n] (dtx_data regression a0 a1 n d)) "nc"
          maxlag autolag :: tl.
Proof.
  intros en ex Harc Ha0 Ha1. unfold dfgls_tail. cbv zeta.
  rewrite run_bind, run_invoke. fold en ex. rewrite Harc.
  rewrite run_bind, (run_getitem arc 0 a0) by done.
  rewrite run_bind.
  assert ((if decide (regression = "ct") then getitem arc 1
           else (mret a0 : M float))
            (State (heap s) (calls s ++ [call_OLS en ex]))
          = (Return a1, State (heap s) (calls s ++ [call_OLS en ex]))) as ->.
  { case_decide; [by apply run_getitem | by subst a1]. }
  rewrite run_bind, run_invoke. cbn [heap calls].
  set (c2 := call_adfuller _ _ _ _).
  destruct (adfuller sm _ _ _ _) as [a|e].
  2:{ exists []. cbn [snd calls]. by rewrite <- app_assoc. }
  case_decide.
  - destruct (correct_ct_calls sm (NdArray 1%positive [n]) a
                (State (heap s) ((calls s ++ [call_OLS en ex]) ++ [c2])))
      as (tl & -> & _).
    exists tl. cbn [calls]. by rewrite <- !app_assoc.
  - exists []. rewrite run_ret. cbn [snd calls]. by rewrite <- app_assoc.
Qed.

End frames.

(** * The claims *)

(** An empty series passes the checks and stops at the division of line 110. *)
Example dfgls_empty_series :
  dfgls demo_sm (NdArray 5%positive [0]) "c" None (Some "AIC")
    (State {[ 5%positive := [] ]} [])
  = (Raise ZeroDivisionError, State {[ 5%positive := [] ]} []).
Proof. vm_compute. reflexivity. Qed.

(** The small run with ['c']: [adfuller]'s tuple is the result. *)
Example dfgls_demo_c :
  (dfgls demo_sm demo_x "c" (Some 3%Z) None demo_state).1
  = Return (AdfRes (-2.5) 0.125 1 2 (cv_dict (-2.5) (-1.875) (-1.625)) None)
  ∧ calls (dfgls demo_sm demo_x "c" (Some 3%Z) None demo_state).2
    = [call_OLS (ArrVal [4; 1] [1; 2.75; 5.5; 11]%float)
         (ArrVal [4; 1] [1; 1.75; 1.75; 1.75]%float);
       call_adfuller (ArrVal [4] [0.5; 1.5; 3.5; 7.5]%float) "nc" (Some 3%Z)
         None].
Proof. split; vm_compute; reflexivity. Qed.

(** The small run with ['ct'] in the namespace of [dfgls.py] as it is:
    line 135 raises after [OLS] and [adfuller] have been called. *)
Example dfgls_demo_ct_module :
  (dfgls demo_module demo_x "ct" None (Some "AIC") demo_state).1
  = Raise (NameError "mackinnoncrit")
  ∧ calls (dfgls demo_module demo_x "ct" None (Some "AIC") demo_state).2
    = [call_OLS (ArrVal [4; 1] [1; 4.375; 8.75; 17.5]%float)
         (ArrVal [4; 2]
            [1; 1; 3.375; 4.375; 3.375; 7.75; 3.375; 11.125]%float);
       call_adfuller demo_adjusted "nc" None (Some "AIC")].
Proof. split; vm_compute; reflexivity. Qed.

(** The small run with ['ct'], the two names bound as in [demo_sm]. *)
Example dfgls_demo_ct :
  calls (dfgls demo_sm demo_x "ct" None (Some "AIC") demo_state).2
  = [call_OLS (ArrVal [4; 1] [1; 4.375; 8.75; 17.5]%float)
       (ArrVal [4; 2]
          [1; 1; 3.375; 4.375; 3.375; 7.75; 3.375; 11.125]%float);
     call_adfuller demo_adjusted "nc" None (Some "AIC");
     call_mackinnoncrit 1 "c" 4; call_mackinnonp (-2.5) "c" 1].
Proof. vm_compute. reflexivity. Qed.

Section claims.
Variable sm : statsmodels.
Implicit Types (s : state) (d : list float) (n : nat) (x : ndarray)
  (regression : string) (maxlag : option Z) (autolag : option string).

Lemma dfgls_on_valid s x d regression maxlag autolag :
  holds s x d → series_shape x → regression ∈ ["c"; "ct"] → 0 < length d →
  let n := length d in
  let alpha := if decide (regression = "c")
               then (of_int 1 - of_int 7 / of_int (Z.of_nat n))%float
               else (of_int 1 - 13.5 / of_int (Z.of_nat n))%float in
  (dfgls sm x regression maxlag autolag s).1
  = (dfgls_tail sm n d regression maxlag autolag alpha s).1 ∧
  calls (dfgls sm x regression maxlag autolag s).2
  = calls (dfgls_tail sm n d regression maxlag autolag alpha s).2.
Proof.
  intros Hx Hsh Hr Hn n alpha.
  rewrite (dfgls_outcome sm s x d), (dfgls_calls sm s x d) by done.
  destruct Hx as [_ Hlen]. unfold alpha, n. rewrite Hlen in *.
  by rewrite dfgls_values_valid.
Qed.

Lemma dfgls_Return s x d regression maxlag autolag res :
  holds s x d →
  (dfgls sm x regression maxlag autolag s).1 = Return res →
  series_shape x ∧ regression ∈ ["c"; "ct"] ∧ 0 < length d.
Proof.
  intros Hx Hres. rewrite (dfgls_outcome sm s x d) in Hres by done.
  apply dfgls_values_Return in Hres as (? & ? & ?).
  destruct Hx as [_ ->]. done.
Qed.

End claims.

(** C3: for a valid series of length [n >= 1], line 110 (resp. 113) binds
    [alpha] to [1 - 7/n] for ['c'] (resp. [1 - 13.5/n] for ['ct']), with [n]
    the length of the flattened series, and the auxiliary regression is run
    on the arrays quasi-differenced with this [alpha]. *)
Theorem alpha_parameter (sm : statsmodels) (s : state) (x : ndarray)
    (d : list float) (regression : string) (maxlag : option Z)
    (autolag : option string) :
  holds s x d → series_shape x → regression ∈ ["c"; "ct"] → 0 < length d →
  let n := length d in
  let alpha := if decide (regression = "c")
               then (of_int 1 - of_int 7 / of_int (Z.of_nat n))%float
               else (of_int 1 - 13.5 / of_int (Z.of_nat n))%float in
  (∃ exog, ((np.reshape_column x ≫= λ x1, init_alpha_exog x1 regression) s).1
           = Return (alpha, exog)) ∧
  ∃ tl, calls (dfgls sm x regression maxlag autolag s).2
        = calls s ++
          call_OLS (ArrVal [n; 1] (endog_data alpha n d))
            (ArrVal [n; ncols regression] (exog_data regression alpha n)) :: tl.
Proof.
  intros Hx Hsh Hr Hn n alpha. split.
  - destruct Hx as [_ Hlen].
    rewrite run_bind. unfold np.reshape_column. rewrite run_ret.
    rewrite run_init_alpha_exog, <- Hlen, run_alpha_of by done.
    by eexists.
  - destruct (dfgls_on_valid sm s x d regression maxlag autolag)
      as [_ ->]; [done ..|].
    apply dfgls_tail_first_call.
Qed.

Lemma alpha_parameter_witness :
  holds demo_state demo_x demo_series ∧ series_shape demo_x ∧
  "ct" ∈ ["c"; "ct"] ∧ 0 < length demo_series ∧
  (∃ exog, ((np.reshape_column demo_x ≫= λ x1, init_alpha_exog x1 "ct")
              demo_state).1
           = Return ((of_int 1 - 13.5 / of_int 4)%float, exog)) ∧
  ∃ tl, calls (dfgls demo_sm demo_x "ct" None (Some "AIC") demo_state).2
        = calls demo_state ++
          call_OLS
            (ArrVal [4; 1]
               (endog_data (of_int 1 - 13.5 / of_int 4)%float 4 demo_series))
            (ArrVal [4; ncols "ct"]
               (exog_data "ct" (of_int 1 - 13.5 / of_int 4)%float 4)) :: tl.
Proof.
  assert (holds demo_state demo_x demo_series) as Hx by (by split).
  assert (series_shape demo_x) as Hsh
    by (unfold series_shape, ndim, dim; simpl; lia).
  assert ("ct" ∈ ["c"; "ct"]) as Hr by (apply list_elem_of_In; simpl; auto).
  assert (0 < length demo_series) as Hn by (simpl; lia).
  split_and!; [done ..| |];
    apply (alpha_parameter demo_sm demo_state demo_x demo_series "ct" None
             (Some "AIC") Hx Hsh Hr Hn).
Defined.

(** C4: for a valid series, the arrays handed to the auxiliary regression
    satisfy [endog[0] = series[0]], [endog[i] = series[i] - alpha *
    series[i-1]] for [i >= 1] (on the original values), [exog[0,0] = 1],
    [exog[i,0] = 1 - alpha] for [i >= 1], and for ['ct'] [exog[0,1] = 1] and
    [exog[i,1] = t[i] - alpha * t[i-1]] for [i >= 1], with [t = 1..n]. *)
Theorem auxiliary_regression_inputs (sm : statsmodels) (s : state)
    (x : ndarray) (d : list float) (regression : string) (maxlag : option Z)
    (autolag : option string) :
  holds s x d → series_shape x → regression ∈ ["c"; "ct"] → 0 < length d →
  let n := length d in
  let alpha := if decide (regression = "c")
               then (of_int 1 - of_int 7 / of_int (Z.of_nat n))%float
               else (of_int 1 - 13.5 / of_int (Z.of_nat n))%float in
  ∃ endog exog tl,
    calls (dfgls sm x regression maxlag autolag s).2
    = calls s ++ call_OLS endog exog :: tl ∧
    av_shape endog = [n; 1] ∧
    entry endog 0 0 = d !! 0 ∧
    (∀ i xi xp, (1 ≤ i)%nat → d !! i = Some xi → d !! (i - 1) = Some xp →
       entry endog i 0 = Some (xi - alpha * xp)%float) ∧
    av_shape exog = [n; ncols regression] ∧
    entry exog 0 0 = Some 1%float ∧
    (∀ i, (1 ≤ i < n)%nat → entry exog i 0 = Some (1 - alpha)%float) ∧
    (regression = "ct" →
       entry exog 0 1 = Some 1%float ∧
       ∀ i, (1 ≤ i < n)%nat →
         entry exog i 1
         = Some (of_int (Z.of_nat (i + 1)) - alpha * of_int (Z.of_nat i))%float).
Proof.
  intros Hx Hsh Hr Hn n alpha.
  destruct (dfgls_on_valid sm s x d regression maxlag autolag)
    as [_ Hcalls]; [done ..|].
  destruct (dfgls_tail_first_call sm n d regression maxlag autolag alpha s)
    as [tl Htl].
  eexists _, _, tl. split; [etrans; [exact Hcalls | exact Htl] |].
  unfold entry. cbn [av_shape av_data nth].
  split_and!.
  - done.
  - apply endog_data_first.
  - intros i xi xp Hi Hxi Hxp. rewrite Nat.mul_1_r, Nat.add_0_r.
    by apply endog_data_next.
  - done.
  - rewrite (exog_data_col0 regression alpha n 0) by done. done.
  - intros i Hi. rewrite (exog_data_col0 regression alpha n i) by (done || lia).
    rewrite decide_False by lia. done.
  - intros ->. change (ncols "ct") with 2. split.
    + by rewrite (exog_data_col1 alpha n 0).
    + intros i Hi. rewrite (exog_data_col1 alpha n i) by lia.
      rewrite decide_False by lia. done.
Qed.

Lemma auxiliary_regression_inputs_witness :
  holds demo_state demo_x demo_series ∧ series_shape demo_x ∧
  "ct" ∈ ["c"; "ct"] ∧ 0 < length demo_series ∧
  ∃ endog exog tl,
    calls (dfgls demo_sm demo_x "ct" None (Some "AIC") demo_state).2
    = calls demo_state ++ call_OLS endog exog :: tl ∧
    av_shape endog = [4; 1] ∧
    entry endog 0 0 = demo_series !! 0 ∧
    (∀ i xi xp, (1 ≤ i)%nat → demo_series !! i = Some xi →
       demo_series !! (i - 1) = Some xp →
       entry endog i 0
       = Some (xi - (of_int 1 - 13.5 / of_int 4) * xp)%float) ∧
    av_shape exog = [4; ncols "ct"] ∧
    entry exog 0 0 = Some 1%float ∧
    (∀ i, (1 ≤ i < 4)%nat →
       entry exog i 0 = Some (1 - (of_int 1 - 13.5 / of_int 4))%float) ∧
    ("ct" = "ct" →
       entry exog 0 1 = Some 1%float ∧
       ∀ i, (1 ≤ i < 4)%nat →
         entry exog i 1
         = Some (of_int (Z.of_nat (i + 1))
                 - (of_int 1 - 13.5 / of_int 4) * of_int (Z.of_nat i))%float).
Proof.
  assert (holds demo_state demo_x demo_series) as Hx by (by split).
  assert (series_shape demo_x) as Hsh
    by (unfold series_shape, ndim, dim; simpl; lia).
  assert ("ct" ∈ ["c"; "ct"]) as Hr by (apply list_elem_of_In; simpl; auto).
  assert (0 < length demo_series) as Hn by (simpl; lia).
  split_and!; [done ..|].
  apply (auxiliary_regression_inputs demo_sm demo_state demo_x demo_series
           "ct" None (Some "AIC") Hx Hsh Hr Hn).
Defined.

(** C5: for a valid series and coefficients [arc] returned by the auxiliary
    regression, the series passed to [adfuller] is [series[i] - arc[0]] for
    ['c'] and [series[i] - arc[0] - arc[1] * (i + 1)] for ['ct'], computed
    from the original series. *)
Theorem adjusted_series (sm : statsmodels) (s : state) (x : ndarray)
    (d : list float) (regression : string) (maxlag : option Z)
    (autolag : option string) (arc : list float) (a0 a1 : float) :
  holds s x d → series_shape x → regression ∈ ["c"; "ct"] → 0 < length d →
  let n := length d in
  let alpha := if decide (regression = "c")
               then (of_int 1 - of_int 7 / of_int (Z.of_nat n))%float
               else (of_int 1 - 13.5 / of_int (Z.of_nat n))%float in
  let endog := ArrVal [n; 1] (endog_data alpha n d) in
  let exog := ArrVal [n; ncols regression] (exog_data regression alpha n) in
  OLS sm endog exog = Return arc → arc !! 0 = Some a0 →
  (if decide (regression = "ct") then arc !! 1 = Some a1 else a1 = a0) →
  ∃ adjusted tl,
    calls (dfgls sm x regression maxlag autolag s).2
    = calls s ++ call_OLS endog exog ::
        call_adfuller adjusted "nc" maxlag autolag :: tl ∧
    av_shape adjusted = [n] ∧
    ∀ i xi, d !! i = Some xi →
      av_data adjusted !! i
      = Some (if decide (regression = "ct")
              then (xi - a0 - a1 * of_int (Z.of_nat (i + 1)))%float
              else (xi - a0)%float).
Proof.
  intros Hx Hsh Hr Hn n alpha endog exog Harc Ha0 Ha1.
  destruct (dfgls_on_valid sm s x d regression maxlag autolag)
    as [_ Hcalls]; [done ..|].
  destruct (dfgls_tail_second_call sm n d regression maxlag autolag alpha s
              arc a0 a1 Harc Ha0 Ha1) as [tl Htl].
  eexists _, tl. split; [etrans; [exact Hcalls | exact Htl] |].
  split; [done |]. intros i xi Hxi. cbn [av_data].
  destruct (decide (regression = "ct")) as [-> | Hct].
  - by apply dtx_data_ct.
  - by apply dtx_data_c.
Qed.

Lemma adjusted_series_witness :
  holds demo_state demo_x demo_series ∧ series_shape demo_x ∧
  "ct" ∈ ["c"; "ct"] ∧ 0 < length demo_series ∧
  OLS demo_sm
    (ArrVal [4; 1]
       (endog_data (of_int 1 - 13.5 / of_int 4)%float 4 demo_series))
    (ArrVal [4; ncols "ct"]
       (exog_data "ct" (of_int 1 - 13.5 / of_int 4)%float 4))
  = Return [0.5; 0.25]%float ∧
  [0.5; 0.25]%float !! 0 = Some 0.5%float ∧
  [0.5; 0.25]%float !! 1 = Some 0.25%float ∧
  ∃ adjusted tl,
    calls (dfgls demo_sm demo_x "ct" None (Some "AIC") demo_state).2
    = calls demo_state ++
        call_OLS
          (ArrVal [4; 1]
             (endog_data (of_int 1 - 13.5 / of_int 4)%float 4 demo_series))
          (ArrVal [4; ncols "ct"]
             (exog_data "ct" (of_int 1 - 13.5 / of_int 4)%float 4)) ::
        call_adfuller adjusted "nc" None (Some "AIC") :: tl ∧
    av_shape adjusted = [4] ∧
    ∀ i xi, demo_series !! i = Some xi →
      av_data adjusted !! i
      = Some (if decide ("ct" = "ct")
              then (xi - 0.5 - 0.25 * of_int (Z.of_nat (i + 1)))%float
              else (xi - 0.5)%float).
Proof.
  assert (holds demo_state demo_x demo_series) as Hx by (by split).
  assert (series_shape demo_x) as Hsh
    by (unfold series_shape, ndim, dim; simpl; lia).
  assert ("ct" ∈ ["c"; "ct"]) as Hr by (apply list_elem_of_In; simpl; auto).
  assert (0 < length demo_series) as Hn by (simpl; lia).
  split_and!; [done ..|].
  apply (adjusted_series demo_sm demo_state demo_x demo_series "ct" None
           (Some "AIC") [0.5; 0.25]%float 0.5%float 0.25%float Hx Hsh Hr Hn);
    reflexivity.
Defined.




(** Lines 135-137 in a namespace that binds [mackinnoncrit] and
    [mackinnonp] (a run of ['ct'] returns in no other): [pvalue] and
    [critvalues] of the result are [mackinnonp] and [mackinnoncrit] with
    [N = 1] and [regression = 'c'], at the statistic [adfuller] returned, and
    with [nobs] the length of the adjusted series, which is the length of
    the input series. *)
Lemma trend_correction (sm : statsmodels) (s : state) (x : ndarray)
    (d : list float) (maxlag : option Z) (autolag : option string)
    (res : adfres) :
  holds s x d →
  (dfgls sm x "ct" maxlag autolag s).1 = Return res →
  ∃ endog exog adjusted a cvs p cv1 cv5 cv10,
    calls (dfgls sm x "ct" maxlag autolag s).2
    = calls s ++
      [call_OLS endog exog; call_adfuller adjusted "nc" maxlag autolag;
       call_mackinnoncrit 1 "c" (Z.of_nat (length d));
       call_mackinnonp (adfstat a) "c" 1] ∧
    av_shape adjusted = [length d] ∧
    adfuller sm adjusted "nc" maxlag autolag = Return a ∧
    mackinnoncrit sm 1 "c" (Z.of_nat (length d)) = Return cvs ∧
    mackinnonp sm (adfstat a) "c" 1 = Return p ∧
    cvs !! 0 = Some cv1 ∧ cvs !! 1 = Some cv5 ∧ cvs !! 2 = Some cv10 ∧
    pvalue res = p ∧ critvalues res = cv_dict cv1 cv5 cv10.
Proof.
  intros Hx Hres.
  destruct (dfgls_Return sm s x d "ct" maxlag autolag res Hx Hres)
    as (Hsh & Hr & Hn).
  destruct (dfgls_on_valid sm s x d "ct" maxlag autolag)
    as [Hout Hcalls]; [done ..|].
  rewrite Hout in Hres.
  destruct (dfgls_tail_Return sm _ _ _ _ _ _ _ _ Hres)
    as (arc & a0 & a1 & a & tl & Harc & Ha0 & Ha1 & Ha & Hlog & Hend).
  rewrite decide_True in Hend by done. destruct Hend as (s' & Hct & Htl).
  destruct (correct_ct_Return sm _ _ _ _ Hct)
    as (cvs & p & cv1 & cv5 & cv10 & Hcrit & Hp & H1 & H5 & H10 & -> & Hc).
  rewrite Htl in Hc. apply app_inv_head in Hc as ->.
  eexists _, _, _, a, cvs, p, cv1, cv5, cv10.
  split_and!; [etrans; [exact Hcalls | exact Hlog] | done ..].
Qed.

(** With the two names bound as in [demo_sm]: [adfuller] reports 2
    observations used, the critical values at [nobs = 2] are -4.5, -3.25 and
    -3, and the result has other critical values (those at [nobs = 4]). *)
Example trend_correction_uses_series_length :
  ∃ res a,
    (dfgls demo_sm demo_x "ct" None (Some "AIC") demo_state).1 = Return res ∧
    calls (dfgls demo_sm demo_x "ct" None (Some "AIC") demo_state).2 !! 1
    = Some (call_adfuller demo_adjusted "nc" None (Some "AIC")) ∧
    adfuller demo_sm demo_adjusted "nc" None (Some "AIC") = Return a ∧
    nobs a = 2%Z ∧
    mackinnoncrit demo_sm 1 "c" (nobs a) = Return [-4.5; -3.25; -3]%float ∧
    critvalues res ≠ cv_dict (-4.5) (-3.25) (-3).
Proof.
  eexists _, _. split_and!; [vm_compute; reflexivity ..|].
  intros Heq.
  apply (f_equal (λ m : gmap string float,
                    match m !! "1%" with
                    | Some v => PrimFloat.ltb v (-4.25)
                    | None => false
                    end)) in Heq.
  vm_compute in Heq. discriminate.
Qed.

(** When a run of ['ct'] returns (the two names are bound then), the result
    keeps the statistic, the lag and the number of observations of
    [adfuller] and has no [icbest]. *)
Lemma trend_result_fields (sm : statsmodels) (s : state) (x : ndarray)
    (d : list float) (maxlag : option Z) (autolag : option string)
    (res : adfres) :
  holds s x d →
  (dfgls sm x "ct" maxlag autolag s).1 = Return res →
  ∃ adjusted a,
    calls (dfgls sm x "ct" maxlag autolag s).2 !! S (length (calls s))
    = Some (call_adfuller adjusted "nc" maxlag autolag) ∧
    adfuller sm adjusted "nc" maxlag autolag = Return a ∧
    adfstat res = adfstat a ∧ usedlag res = usedlag a ∧ nobs res = nobs a ∧
    icbest res = None.
Proof.
  intros Hx Hres.
  destruct (dfgls_Return sm s x d "ct" maxlag autolag res Hx Hres)
    as (Hsh & Hr & Hn).
  destruct (dfgls_on_valid sm s x d "ct" maxlag autolag)
    as [Hout Hcalls]; [done ..|].
  rewrite Hout in Hres.
  destruct (dfgls_tail_Return sm _ _ _ _ _ _ _ _ Hres)
    as (arc & a0 & a1 & a & tl & Harc & Ha0 & Ha1 & Ha & Hlog & Hend).
  rewrite decide_True in Hend by done. destruct Hend as (s' & Hct & Htl).
  destruct (correct_ct_Return sm _ _ _ _ Hct)
    as (cvs & p & cv1 & cv5 & cv10 & _ & _ & _ & _ & _ & -> & _).
  eexists _, a. split_and!; [| exact Ha | done ..].
  pose proof (eq_trans Hcalls Hlog) as ->.
  rewrite lookup_app_r by lia.
  by replace (S (length (calls s)) - length (calls s)) with 1 by lia.
Qed.

(** With the two names bound as in [demo_sm], ['ct'] and [autolag='AIC']:
    [adfuller] returns an [icbest] (here 7) and the result has none. *)
Example trend_result_without_icbest :
  ∃ res a,
    (dfgls demo_sm demo_x "ct" None (Some "AIC") demo_state).1 = Return res ∧
    calls (dfgls demo_sm demo_x "ct" None (Some "AIC") demo_state).2 !! 1
    = Some (call_adfuller demo_adjusted "nc" None (Some "AIC")) ∧
    adfuller demo_sm demo_adjusted "nc" None (Some "AIC") = Return a ∧
    icbest a = Some 7%float ∧ icbest res = None ∧
    adfstat res = adfstat a ∧ usedlag res = usedlag a ∧ nobs res = nobs a.
Proof.
  eexists _, _. split_and!; vm_compute; reflexivity.
Qed.

(** [dfgls.py] as it is: with ['ct'], once [adfuller] has returned, line 135
    raises. *)
Lemma dfgls_tail_unbound (sm : statsmodels) (n : nat) (d : list float)
    (maxlag : option Z) (autolag : option string) (alpha : float) (s : state)
    (arc : list float) (a0 a1 : float) (a : adfres) :
  let en := ArrVal [n; 1] (endog_data alpha n d) in
  let ex := ArrVal [n; ncols "ct"] (exog_data "ct" alpha n) in
  let v := ArrVal [n] (dtx_data "ct" a0 a1 n d) in
  mackinnoncrit_global sm = None →
  OLS sm en ex = Return arc → arc !! 0 = Some a0 → arc !! 1 = Some a1 →
  adfuller sm v "nc" maxlag autolag = Return a →
  dfgls_tail sm n d "ct" maxlag autolag alpha s
  = (Raise (NameError "mackinnoncrit"),
     State (heap s)
       (calls s ++ [call_OLS en ex; call_adfuller v "nc" maxlag autolag])).
Proof.
  intros en ex v Hnone Harc Ha0 Ha1 Ha. unfold dfgls_tail. cbv zeta.
  destruct (decide ("ct" = "ct")) as [_|?]; [| done].
  rewrite run_bind, run_invoke. fold en ex. rewrite Harc.
  rewrite run_bind, (run_getitem arc 0 a0) by done.
  rewrite run_bind, (run_getitem arc 1 a1) by done.
  rewrite run_bind, run_invoke. fold v. rewrite Ha. cbn [heap calls].
  unfold correct_ct, global_name, raise. rewrite run_bind, Hnone.
  by rewrite <- app_assoc.
Qed.

(** C1: in [dfgls.py] as it is (nothing binds [mackinnoncrit]), a run with
    ['ct'] on a valid series computes no corrected p-value and no critical
    values: once [OLS] and [adfuller] have returned, line 135 raises
    [NameError] and these two calls are the only ones made. *)
Theorem trend_correction_raises_NameError
    (ols : arrval → arrval → outcome (list float))
    (adf : arrval → string → option Z → option string → outcome adfres)
    (s : state) (x : ndarray) (d : list float) (maxlag : option Z)
    (autolag : option string) (arc : list float) (a0 a1 : float) (a : adfres) :
  holds s x d → series_shape x → 0 < length d →
  let n := length d in
  let alpha := (of_int 1 - 13.5 / of_int (Z.of_nat n))%float in
  let endog := ArrVal [n; 1] (endog_data alpha n d) in
  let exog := ArrVal [n; ncols "ct"] (exog_data "ct" alpha n) in
  let adjusted := ArrVal [n] (dtx_data "ct" a0 a1 n d) in
  ols endog exog = Return arc → arc !! 0 = Some a0 → arc !! 1 = Some a1 →
  adf adjusted "nc" maxlag autolag = Return a →
  (dfgls (module_globals ols adf) x "ct" maxlag autolag s).1
  = Raise (NameError "mackinnoncrit") ∧
  new_calls s (dfgls (module_globals ols adf) x "ct" maxlag autolag s)
  = [call_OLS endog exog; call_adfuller adjusted "nc" maxlag autolag].
Proof.
  intros Hx Hsh Hn n alpha endog exog adjusted Harc Ha0 Ha1 Ha.
  assert ("ct" ∈ ["c"; "ct"]) as Hr by (apply list_elem_of_In; simpl; auto).
  destruct (dfgls_on_valid (module_globals ols adf) s x d "ct" maxlag autolag)
    as [Hout Hcalls]; [done ..|].
  assert (dfgls_tail (module_globals ols adf) n d "ct" maxlag autolag alpha s
          = (Raise (NameError "mackinnoncrit"),
             State (heap s)
               (calls s ++ [call_OLS endog exog;
                            call_adfuller adjusted "nc" maxlag autolag])))
    as Htail by (by apply (dfgls_tail_unbound _ _ _ _ _ _ _ arc a0 a1 a)).
  unfold new_calls. rewrite Hout, Hcalls.
  rewrite decide_False by done. fold n alpha. rewrite Htail.
  cbn [fst snd calls]. by rewrite drop_app_length.
Qed.

Lemma trend_correction_raises_NameError_witness :
  holds demo_state demo_x demo_series ∧ series_shape demo_x ∧
  0 < length demo_series ∧
  OLS demo_sm
    (ArrVal [4; 1]
       (endog_data (of_int 1 - 13.5 / of_int 4)%float 4 demo_series))
    (ArrVal [4; ncols "ct"]
       (exog_data "ct" (of_int 1 - 13.5 / of_int 4)%float 4))
  = Return [0.5; 0.25]%float ∧
  [0.5; 0.25]%float !! 0 = Some 0.5%float ∧
  [0.5; 0.25]%float !! 1 = Some 0.25%float ∧
  adfuller demo_sm (ArrVal [4] (dtx_data "ct" 0.5 0.25 4 demo_series)) "nc"
    None (Some "AIC")
  = Return (AdfRes (-2.5) 0.125 1 2 (cv_dict (-2.5) (-1.875) (-1.625))
              (Some 7%float)) ∧
  (dfgls (module_globals (OLS demo_sm) (adfuller demo_sm)) demo_x "ct" None
     (Some "AIC") demo_state).1
  = Raise (NameError "mackinnoncrit") ∧
  new_calls demo_state
    (dfgls (module_globals (OLS demo_sm) (adfuller demo_sm)) demo_x "ct" None
       (Some "AIC") demo_state)
  = [call_OLS
       (ArrVal [4; 1]
          (endog_data (of_int 1 - 13.5 / of_int 4)%float 4 demo_series))
       (ArrVal [4; ncols "ct"]
          (exog_data "ct" (of_int 1 - 13.5 / of_int 4)%float 4));
     call_adfuller (ArrVal [4] (dtx_data "ct" 0.5 0.25 4 demo_series)) "nc"
       None (Some "AIC")].
Proof.
  assert (holds demo_state demo_x demo_series) as Hx by (by split).
  assert (series_shape demo_x) as Hsh
    by (unfold series_shape, ndim, dim; simpl; lia).
  assert (0 < length demo_series) as Hn by (simpl; lia).
  assert (adfuller demo_sm (ArrVal [4] (dtx_data "ct" 0.5 0.25 4 demo_series))
            "nc" None (Some "AIC")
          = Return (AdfRes (-2.5) 0.125 1 2 (cv_dict (-2.5) (-1.875) (-1.625))
                      (Some 7%float))) as Ha by (vm_compute; reflexivity).
  split_and!; [done | done | done | reflexivity | reflexivity | reflexivity
              | exact Ha | |];
    apply (trend_correction_raises_NameError (OLS demo_sm) (adfuller demo_sm)
             demo_state demo_x demo_series None (Some "AIC")
             [0.5; 0.25]%float 0.5%float 0.25%float _ Hx Hsh Hn
             eq_refl eq_refl eq_refl Ha).
Defined.

Lemma check_args_rejects (x : ndarray) (regression : string) (s : state) :
  regression ∉ ["c"; "ct"] ∨ 2 < ndim x ∨ (ndim x = 2 ∧ dim x 1 ≠ 1) →
  ∃ msg, check_args x regression s = (Raise (ValueError msg), s).
Proof.
  intros Hbad. unfold check_args, raise.
  unfold mbind, M_bind, mret, M_ret.
  repeat case_decide; try by eexists.
  exfalso. destruct Hbad as [? | [? | ?]]; tauto.
Qed.

(** C7: [dfgls] raises [ValueError] when [regression] is neither ['c'] nor
    ['ct'], when [x] has more than two dimensions, and when it has two
    dimensions and more than one column; nothing has been computed then: no
    buffer is allocated and statsmodels is not called. *)
Theorem dfgls_rejects_invalid_arguments (sm : statsmodels) (s : state)
    (x : ndarray) (regression : string) (maxlag : option Z)
    (autolag : option string) :
  regression ∉ ["c"; "ct"] ∨ 2 < ndim x ∨ (ndim x = 2 ∧ 1 < dim x 1) →
  ∃ msg,
    dfgls sm x regression maxlag autolag s = (Raise (ValueError msg), s).
Proof.
  intros Hbad.
  destruct (check_args_rejects x regression s) as [msg Hmsg].
  { destruct Hbad as [? | [? | [? ?]]]; [auto | auto |].
    right. right. split; [done | lia]. }
  exists msg. unfold dfgls. by rewrite run_bind, Hmsg.
Qed.

Lemma dfgls_rejects_invalid_arguments_witness :
  ("x" ∉ ["c"; "ct"] ∨ 2 < ndim demo_x ∨ (ndim demo_x = 2 ∧ 1 < dim demo_x 1)) ∧
  ∃ msg,
    dfgls demo_sm demo_x "x" None (Some "AIC") demo_state
    = (Raise (ValueError msg), demo_state).
Proof.
  assert ("x" ∉ ["c"; "ct"] ∨ 2 < ndim demo_x ∨
          (ndim demo_x = 2 ∧ 1 < dim demo_x 1)) as Hbad.
  { left. intros Hin. apply list_elem_of_In in Hin. simpl in Hin.
    destruct Hin as [Hin | [Hin | []]]; discriminate Hin. }
  split; [exact Hbad |].
  apply (dfgls_rejects_invalid_arguments demo_sm demo_state demo_x "x" None
           (Some "AIC") Hbad).
Defined.

(** C10: a two-dimensional [x] whose number of columns is not 1, zero
    columns included, is rejected with [ValueError]. *)
Theorem dfgls_rejects_other_column_counts (sm : statsmodels) (s : state)
    (x : ndarray) (regression : string) (maxlag : option Z)
    (autolag : option string) :
  ndim x = 2 → dim x 1 ≠ 1 →
  ∃ msg,
    dfgls sm x regression maxlag autolag s = (Raise (ValueError msg), s).
Proof.
  intros Hnd Hcol.
  destruct (check_args_rejects x regression s) as [msg Hmsg]; [auto |].
  exists msg. unfold dfgls. by rewrite run_bind, Hmsg.
Qed.

Lemma dfgls_rejects_other_column_counts_witness :
  ndim (NdArray 5%positive [4; 0]) = 2 ∧ dim (NdArray 5%positive [4; 0]) 1 ≠ 1 ∧
  ∃ msg,
    dfgls demo_sm (NdArray 5%positive [4; 0]) "c" None (Some "AIC") demo_state
    = (Raise (ValueError msg), demo_state).
Proof.
  assert (ndim (NdArray 5%positive [4; 0]) = 2) as Hnd by reflexivity.
  assert (dim (NdArray 5%positive [4; 0]) 1 ≠ 1) as Hcol
    by (unfold dim; simpl; lia).
  split_and!; [done ..|].
  apply (dfgls_rejects_other_column_counts demo_sm demo_state
           (NdArray 5%positive [4; 0]) "c" None (Some "AIC") Hnd Hcol).
Defined.

(** C8: the buffers that exist when [dfgls] is called, the caller's series
    among them, have the same contents when it returns or raises. *)
Theorem dfgls_preserves_series (sm : statsmodels) (s : state) (x : ndarray)
    (d : list float) (regression : string) (maxlag : option Z)
    (autolag : option string) :
  holds s x d →
  heap s ⊆ heap (dfgls sm x regression maxlag autolag s).2 ∧
  heap (dfgls sm x regression maxlag autolag s).2 !! base x = Some d.
Proof.
  intros Hx.
  pose proof (dfgls_heap sm s x d regression maxlag autolag Hx) as Hsub.
  split; [done |]. destruct Hx as [Hx _]. by eapply lookup_weaken.
Qed.

Lemma dfgls_preserves_series_witness :
  holds demo_state demo_x demo_series ∧
  heap demo_state
    ⊆ heap (dfgls demo_sm demo_x "ct" None (Some "AIC") demo_state).2 ∧
  heap (dfgls demo_sm demo_x "ct" None (Some "AIC") demo_state).2
    !! base demo_x = Some demo_series.
Proof.
  assert (holds demo_state demo_x demo_series) as Hx by (by split).
  split; [exact Hx |].
  apply (dfgls_preserves_series demo_sm demo_state demo_x demo_series "ct"
           None (Some "AIC") Hx).
Defined.

(** C9: two calls with the same series values, shape, [regression],
    [maxlag] and [autolag] give the same outcome, field by field, and make
    the same calls to statsmodels, wherever the series is stored and
    whatever else the store and the log hold. *)
Theorem dfgls_deterministic (sm : statsmodels) (s1 s2 : state)
    (x1 x2 : ndarray) (d : list float) (regression : string)
    (maxlag : option Z) (autolag : option string) :
  holds s1 x1 d → holds s2 x2 d → shape x1 = shape x2 →
  (dfgls sm x1 regression maxlag autolag s1).1
  = (dfgls sm x2 regression maxlag autolag s2).1 ∧
  drop (length (calls s1)) (calls (dfgls sm x1 regression maxlag autolag s1).2)
  = drop (length (calls s2)) (calls (dfgls sm x2 regression maxlag autolag s2).2).
Proof.
  intros H1 H2 Hsh.
  rewrite (dfgls_outcome sm s1 x1 d), (dfgls_outcome sm s2 x2 d) by done.
  rewrite (dfgls_calls sm s1 x1 d), (dfgls_calls sm s2 x2 d) by done.
  rewrite (dfgls_values_frame sm x1 x2 d regression maxlag autolag s1) by done.
  rewrite (dfgls_values_frame sm x2 x2 d regression maxlag autolag s2) by done.
  cbv zeta. cbn [fst snd calls]. by rewrite !drop_app_length.
Qed.

Lemma dfgls_deterministic_witness :
  holds demo_state demo_x demo_series ∧
  holds demo_state' demo_x' demo_series ∧ shape demo_x = shape demo_x' ∧
  (dfgls demo_sm demo_x "ct" None (Some "AIC") demo_state).1
  = (dfgls demo_sm demo_x' "ct" None (Some "AIC") demo_state').1 ∧
  drop (length (calls demo_state))
    (calls (dfgls demo_sm demo_x "ct" None (Some "AIC") demo_state).2)
  = drop (length (calls demo_state'))
      (calls (dfgls demo_sm demo_x' "ct" None (Some "AIC") demo_state').2).
Proof.
  assert (holds demo_state demo_x demo_series) as H1 by (by split).
  assert (holds demo_state' demo_x' demo_series) as H2 by (by split).
  assert (shape demo_x = shape demo_x') as Hsh by reflexivity.
  split_and!; [done ..| |];
    apply (dfgls_deterministic demo_sm demo_state demo_state' demo_x demo_x'
             demo_series "ct" None (Some "AIC") H1 H2 Hsh).
Defined.


(** * More on the behaviour of [dfgls] *)

Section runs.
Variable sm : statsmodels.
Implicit Types (s : state) (d : list float) (n : nat) (x : ndarray)
  (regression : string) (maxlag : option Z) (autolag : option string).

Lemma correct_ct_run n a :
  let r := correct_ct sm (NdArray 1%positive [n]) a (State ∅ []) in
  let c_crit := call_mackinnoncrit 1 "c" (Z.of_nat n) in
  let c_p := call_mackinnonp (adfstat a) "c" 1 in
  (mackinnoncrit_global sm = None ∧
   r.1 = Raise (NameError "mackinnoncrit") ∧ calls r.2 = []) ∨
  (is_Some (mackinnoncrit_global sm) ∧
   ∃ e, mackinnoncrit sm 1 "c" (Z.of_nat n) = Raise e ∧
        r.1 = Raise e ∧ calls r.2 = [c_crit]) ∨
  (∃ cvs, mackinnoncrit sm 1 "c" (Z.of_nat n) = Return cvs ∧
     ((mackinnonp_global sm = None ∧
       r.1 = Raise (NameError "mackinnonp") ∧ calls r.2 = [c_crit]) ∨
      (calls r.2 = [c_crit; c_p] ∧
       ((is_Some (mackinnonp_global sm) ∧
         ∃ e, mackinnonp sm (adfstat a) "c" 1 = Raise e ∧ r.1 = Raise e) ∨
        (∃ p, mackinnonp sm (adfstat a) "c" 1 = Return p ∧
           ((length cvs < 3 ∧ r.1 = Raise IndexError) ∨
            (∃ cv1 cv5 cv10,
               cvs !! 0 = Some cv1 ∧ cvs !! 1 = Some cv5 ∧
               cvs !! 2 = Some cv10 ∧
               r.1 = Return (AdfRes (adfstat a) p (usedlag a) (nobs a)
                               (cv_dict cv1 cv5 cv10) None)))))))).
Proof.
  unfold correct_ct, global_name, mackinnoncrit, mackinnonp, invoke, getitem,
    raise, dim.
  unfold mbind, M_bind, mret, M_ret.
  destruct (mackinnoncrit_global sm) as [crit|]; [| by left].
  right. simpl.
  destruct (crit _ _ _) as [cvs|e]; [| left; split; [by eexists | by exists e]].
  right. exists cvs. split; [done |].
  destruct (mackinnonp_global sm) as [pval|]; [| by left].
  right. simpl.
  destruct (pval _ _ _) as [p|e]; simpl.
  2:{ split; [done |]. left. split; [by eexists | by exists e]. }
  destruct (cvs !! 0) as [cv1|] eqn:H1; simpl.
  2:{ split; [done |]. right. exists p. split; [done |]. left.
      apply lookup_ge_None in H1. split; [lia | done]. }
  destruct (cvs !! 1) as [cv5|] eqn:H5; simpl.
  2:{ split; [done |]. right. exists p. split; [done |]. left.
      apply lookup_ge_None in H5. split; [lia | done]. }
  destruct (cvs !! 2) as [cv10|] eqn:H10; simpl.
  2:{ split; [done |]. right. exists p. split; [done |]. left.
      apply lookup_ge_None in H10. split; [lia | done]. }
  split; [done |]. right. exists p. split; [done |]. right.
  by exists cv1, cv5, cv10.
Qed.

(** Lines 124-138 run as [tail_run] says. *)
Lemma dfgls_tail_run n d regression maxlag autolag alpha :
  tail_run sm n d regression maxlag autolag alpha
    (dfgls_tail sm n d regression maxlag autolag alpha (State ∅ [])).1
    (calls (dfgls_tail sm n d regression maxlag autolag alpha (State ∅ [])).2).
Proof.
  destruct (dfgls_tail sm n d regression maxlag autolag alpha (State ∅ []))
    as [o s1] eqn:Hrun.
  cbn [fst snd]. revert Hrun. unfold dfgls_tail. cbv zeta.
  rewrite run_bind, run_invoke. cbn [heap calls app].
  destruct (OLS sm _ _) as [arc|e] eqn:Harc.
  2:{ intros [= <- <-]. by apply tail_OLS_raises. }
  rewrite run_bind.
  destruct (arc !! 0) as [a0|] eqn:Ha0.
  2:{ rewrite (run_getitem_None arc 0) by done. intros [= <- <-].
      eapply tail_arc_short; eauto. }
  rewrite (run_getitem arc 0 a0), run_bind by done.
  destruct (decide (regression = "ct")) as [Hct|Hct].
  - destruct (arc !! 1) as [a1|] eqn:Ha1.
    2:{ rewrite (run_getitem_None arc 1) by done. intros [= <- <-].
        eapply tail_arc_short; eauto. }
    rewrite (run_getitem arc 1 a1), run_bind, run_invoke by done.
    cbn [heap calls app].
    destruct (adfuller sm _ _ _ _) as [a|e] eqn:Ha.
    2:{ intros [= <- <-]. eapply tail_adfuller_raises; eauto.
        by rewrite decide_True. }
    rewrite correct_ct_frame. cbv zeta. cbn [heap calls app].
    intros [= <- <-].
    destruct (correct_ct_run n a)
      as [(Hnone & -> & ->)
         | [(Hsome & e & Hc & -> & ->)
           | (cvs & Hc &
              [(Hnone & -> & ->)
              | (-> & [(Hsome & e & Hp & ->)
                      | (p & Hp & [[Hlen ->]
                                  | (cv1 & cv5 & cv10 & ? & ? & ? & ->)])])])]].
    + eapply tail_mackinnoncrit_unbound; eauto.
    + eapply tail_mackinnoncrit_raises; eauto.
    + eapply tail_mackinnonp_unbound; eauto.
    + eapply tail_mackinnonp_raises; eauto.
    + eapply tail_cvs_short; eauto.
    + eapply tail_returns_ct; eauto.
  - rewrite run_ret, run_bind, run_invoke. cbn [heap calls app].
    destruct (adfuller sm _ _ _ _) as [a|e] eqn:Ha.
    2:{ intros [= <- <-]. eapply tail_adfuller_raises; eauto.
        by rewrite decide_False. }
    rewrite run_ret. intros [= <- <-].
    eapply tail_returns_other; eauto. by rewrite decide_False.
Qed.

Lemma dfgls_bad_regression s x regression maxlag autolag :
  regression ∉ ["c"; "ct"] →
  dfgls sm x regression maxlag autolag s
  = (Raise (ValueError ("DFGLS: regression option '" +:+ regression
                          +:+ "' not understood")), s).
Proof.
  intros Hr. unfold dfgls, check_args, raise.
  unfold mbind, M_bind, mret, M_ret. by rewrite decide_True.
Qed.

Lemma dfgls_bad_shape s x regression maxlag autolag :
  regression ∈ ["c"; "ct"] → ¬ series_shape x →
  dfgls sm x regression maxlag autolag s
  = (Raise (ValueError
       "DFGLS: x must be a 1d array or a 2d array with a single column"), s).
Proof.
  intros Hr Hsh. unfold dfgls, check_args, raise.
  unfold mbind, M_bind, mret, M_ret.
  rewrite decide_False by (intros Hn; by apply Hn).
  rewrite decide_True; [done |]. by apply dec_stable.
Qed.

Lemma dfgls_empty s x d regression maxlag autolag :
  holds s x d → series_shape x → regression ∈ ["c"; "ct"] → length d = 0 →
  dfgls sm x regression maxlag autolag s = (Raise ZeroDivisionError, s).
Proof.
  intros [_ Hlen] Hsh Hr Hn. unfold dfgls.
  rewrite run_bind, run_check_args_ok by done.
  unfold np.reshape_column. rewrite run_bind, run_ret.
  rewrite run_bind, run_init_alpha_exog, <- Hlen, Hn.
  by rewrite run_alpha_of_zero.
Qed.

(** Every run of [dfgls] is one of: a rejected argument, an empty series,
    or a run of lines 124-138 on a series of length at least one. *)
Lemma dfgls_cases s x d regression maxlag autolag :
  holds s x d →
  let r := dfgls sm x regression maxlag autolag s in
  ((regression ∉ ["c"; "ct"]) ∧ (∃ msg, r = (Raise (ValueError msg), s))) ∨
  (regression ∈ ["c"; "ct"] ∧ ¬ series_shape x ∧
   ∃ msg, r = (Raise (ValueError msg), s)) ∨
  (regression ∈ ["c"; "ct"] ∧ series_shape x ∧ length d = 0 ∧
   r = (Raise ZeroDivisionError, s)) ∨
  (regression ∈ ["c"; "ct"] ∧ series_shape x ∧ 0 < length d ∧
   tail_run sm (length d) d regression maxlag autolag
     (if decide (regression = "c")
      then (of_int 1 - of_int 7 / of_int (Z.of_nat (length d)))%float
      else (of_int 1 - 13.5 / of_int (Z.of_nat (length d)))%float)
     r.1 (new_calls s r)).
Proof.
  intros Hx r.
  destruct (decide (regression ∈ ["c"; "ct"])) as [Hr|Hr].
  2:{ left. split; [done |]. eexists. by apply dfgls_bad_regression. }
  right. destruct (decide (series_shape x)) as [Hsh|Hsh].
  2:{ left. split_and!; [done | done |]. eexists. by apply dfgls_bad_shape. }
  right. destruct (decide (length d = 0)) as [Hn|Hn].
  { left. split_and!; [done ..|]. by eapply dfgls_empty. }
  right. split_and!; [done | done | lia |].
  destruct (dfgls_on_valid sm s x d regression maxlag autolag)
    as [Hout Hcalls]; [done | done | done | lia |].
  unfold new_calls, r. rewrite Hout, Hcalls, dfgls_tail_frame.
  cbv zeta. cbn [fst snd calls]. rewrite drop_app_length.
  apply dfgls_tail_run.
Qed.

End runs.

(** C2: in [dfgls.py] as it is, no run with ['ct'] returns a result, so
    there is no statistic, lag, number of observations or [icbest] handed
    on: whatever [OLS] and [adfuller] do, [dfgls] raises. *)
Theorem trend_run_never_returns
    (ols : arrval → arrval → outcome (list float))
    (adf : arrval → string → option Z → option string → outcome adfres)
    (s : state) (x : ndarray) (d : list float) (maxlag : option Z)
    (autolag : option string) :
  holds s x d →
  ∃ e, (dfgls (module_globals ols adf) x "ct" maxlag autolag s).1 = Raise e.
Proof.
  intros Hx.
  destruct (dfgls_cases (module_globals ols adf) s x d "ct" maxlag autolag Hx)
    as [(_ & msg & Hrun) | [(_ & _ & msg & Hrun)
       | [(_ & _ & _ & Hrun) | (_ & _ & _ & Hrun)]]];
    [rewrite Hrun; by eexists ..|].
  inversion Hrun as [e' H1 He | arc H1 H2 He | arc a0 a1 e' H1 H2 H3 H4 He |
                     arc a0 a1 a H1 H2 H3 H4 H5 He |
                     arc a0 a1 a H1 H2 H3 H4 H5 H6 He |
                     arc a0 a1 a e' H1 H2 H3 H4 H5 H6 H7 He |
                     arc a0 a1 a cvs H1 H2 H3 H4 H5 H6 H7 He |
                     arc a0 a1 a cvs e' H1 H2 H3 H4 H5 H6 H7 H8 He |
                     arc a0 a1 a cvs p H1 H2 H3 H4 H5 H6 H7 H8 He |
                     arc a0 a1 a cvs p cv1 cv5 cv10 H1 H2 H3 H4 H5 H6 H7 H8 H9
                       H10 He];
    first [exfalso; done | by eexists].
Qed.

Lemma trend_run_never_returns_witness :
  holds demo_state demo_x demo_series ∧
  ∃ e, (dfgls (module_globals (OLS demo_sm) (adfuller demo_sm)) demo_x "ct"
          None (Some "AIC") demo_state).1 = Raise e.
Proof.
  assert (holds demo_state demo_x demo_series) as Hx by (by split).
  split; [exact Hx |].
  apply (trend_run_never_returns (OLS demo_sm) (adfuller demo_sm) demo_state
           demo_x demo_series None (Some "AIC") Hx).
Defined.

(** X1: an empty series is not rejected by the checks; it stops [dfgls] at
    the division of line 110 or 113 with [ZeroDivisionError], before any
    array is allocated or statsmodels is called. *)
Theorem empty_series_division_by_zero (sm : statsmodels) (s : state)
    (x : ndarray) (d : list float) (regression : string) (maxlag : option Z)
    (autolag : option string) :
  holds s x d → series_shape x → regression ∈ ["c"; "ct"] → length d = 0 →
  dfgls sm x regression maxlag autolag s = (Raise ZeroDivisionError, s).
Proof.
  intros [_ Hlen] Hsh Hr Hn. unfold dfgls.
  rewrite run_bind, run_check_args_ok by done.
  unfold np.reshape_column. rewrite run_bind, run_ret.
  rewrite run_bind, run_init_alpha_exog, <- Hlen, Hn.
  by rewrite run_alpha_of_zero.
Qed.

Lemma empty_series_division_by_zero_witness :
  holds (State {[ 5%positive := [] ]} []) (NdArray 5%positive [0; 1]) [] ∧
  series_shape (NdArray 5%positive [0; 1]) ∧ "ct" ∈ ["c"; "ct"] ∧
  length ([] : list float) = 0 ∧
  dfgls demo_sm (NdArray 5%positive [0; 1]) "ct" None (Some "AIC")
    (State {[ 5%positive := [] ]} [])
  = (Raise ZeroDivisionError, State {[ 5%positive := [] ]} []).
Proof.
  assert (holds (State {[ 5%positive := [] ]} []) (NdArray 5%positive [0; 1]) [])
    as Hx by (by split).
  assert (series_shape (NdArray 5%positive [0; 1])) as Hsh
    by (unfold series_shape, ndim, dim; simpl; lia).
  assert ("ct" ∈ ["c"; "ct"]) as Hr by (apply list_elem_of_In; simpl; auto).
  split_and!; [done ..|].
  apply (empty_series_division_by_zero demo_sm _ _ [] "ct" None (Some "AIC")
           Hx Hsh Hr eq_refl).
Defined.





(** X4: the statsmodels calls of one run of [dfgls] are an initial part of
    [OLS], [adfuller(.., 'nc', maxlag, autolag)], [mackinnoncrit(1, 'c',
    n)], [mackinnonp(.., 'c', 1)], in this order and each at most once; for
    ['c'] at most the first two are made. *)
Theorem dfgls_call_order (sm : statsmodels) (s : state) (x : ndarray)
    (d : list float) (regression : string) (maxlag : option Z)
    (autolag : option string) :
  holds s x d →
  let l := new_calls s (dfgls sm x regression maxlag autolag s) in
  (∃ endog exog adjusted stat,
     l `prefix_of`
       [call_OLS endog exog; call_adfuller adjusted "nc" maxlag autolag;
        call_mackinnoncrit 1 "c" (Z.of_nat (length d));
        call_mackinnonp stat "c" 1]) ∧
  (regression ≠ "ct" → length l ≤ 2).
Proof.
  intros Hx l.
  assert (∀ en ex : arrval, ∃ endog exog adjusted stat,
            [] `prefix_of`
              [call_OLS endog exog; call_adfuller adjusted "nc" maxlag autolag;
               call_mackinnoncrit 1 "c" (Z.of_nat (length d));
               call_mackinnonp stat "c" 1]) as Hnil.
  { intros en ex. exists en, ex, en, 0%float. apply prefix_nil. }
  assert (∀ r : outcome adfres * state, r.2 = s → new_calls s r = []) as Hsame.
  { intros [o s'] Heq. cbn [snd] in Heq. subst s'. apply drop_all. }
  destruct (dfgls_cases sm s x d regression maxlag autolag Hx)
    as [(Hr & msg & Hrun) | [(Hr & Hsh & msg & Hrun)
       | [(Hr & Hsh & Hn & Hrun) | (Hr & Hsh & Hn & Hrun)]]].
  1-3: unfold l; rewrite (Hsame _ (f_equal snd Hrun)); split;
    [apply (Hnil (ArrVal [] []) (ArrVal [] [])) | simpl; lia].
  fold l in Hrun.
  inversion Hrun; subst; (split; [| try (simpl; lia); try done]).
  - eexists _, _, (ArrVal [] []), 0%float. by eexists.
  - eexists _, _, (ArrVal [] []), 0%float. by eexists.
  - eexists _, _, _, 0%float. by eexists.
  - eexists _, _, _, 0%float. by eexists.
  - eexists _, _, _, 0%float. by eexists.
  - eexists _, _, _, 0%float. by eexists.
  - eexists _, _, _, 0%float. by eexists.
  - eexists _, _, _, _. by eexists.
  - eexists _, _, _, _. by eexists.
  - eexists _, _, _, _. by eexists.
Qed.

Lemma dfgls_call_order_witness :
  holds demo_state' demo_x' demo_series ∧
  let l := new_calls demo_state'
             (dfgls demo_sm_adf_fails demo_x' "ct" None (Some "AIC") demo_state') in
  (∃ endog exog adjusted stat,
     l `prefix_of`
       [call_OLS endog exog; call_adfuller adjusted "nc" None (Some "AIC");
        call_mackinnoncrit 1 "c" (Z.of_nat (length demo_series));
        call_mackinnonp stat "c" 1]) ∧
  ("ct" ≠ "ct" → length l ≤ 2).
Proof.
  assert (holds demo_state' demo_x' demo_series) as Hx by (by split).
  split; [exact Hx |].
  apply (dfgls_call_order demo_sm_adf_fails demo_state' demo_x' demo_series
           "ct" None (Some "AIC") Hx).
Defined.

Lemma new_calls_unchanged (s : state) (o : outcome adfres) :
  new_calls s (o, s) = [].
Proof. unfold new_calls. apply drop_all. Qed.

(** X5: only the contents of [x] count, not which accepted shape it has: a
    one-dimensional array, a single-column two-dimensional array (or any two
    accepted shapes) holding the same series give the same outcome and the
    same statsmodels calls. *)
Theorem dfgls_shape_insensitive (sm : statsmodels) (s1 s2 : state)
    (x1 x2 : ndarray) (d : list float) (regression : string)
    (maxlag : option Z) (autolag : option string) :
  holds s1 x1 d → holds s2 x2 d → series_shape x1 → series_shape x2 →
  (dfgls sm x1 regression maxlag autolag s1).1
  = (dfgls sm x2 regression maxlag autolag s2).1 ∧
  new_calls s1 (dfgls sm x1 regression maxlag autolag s1)
  = new_calls s2 (dfgls sm x2 regression maxlag autolag s2).
Proof.
  intros H1 H2 Hsh1 Hsh2.
  destruct (decide (regression ∈ ["c"; "ct"])) as [Hr|Hr].
  2:{ rewrite !dfgls_bad_regression by done.
      by rewrite !new_calls_unchanged. }
  destruct (decide (length d = 0)) as [Hn|Hn].
  { rewrite (dfgls_empty sm s1 x1 d), (dfgls_empty sm s2 x2 d) by done.
    by rewrite !new_calls_unchanged. }
  destruct (dfgls_on_valid sm s1 x1 d regression maxlag autolag)
    as [Hout1 Hcalls1]; [done | done | done | lia |].
  destruct (dfgls_on_valid sm s2 x2 d regression maxlag autolag)
    as [Hout2 Hcalls2]; [done | done | done | lia |].
  unfold new_calls. rewrite Hout1, Hout2, Hcalls1, Hcalls2.
  rewrite (dfgls_tail_frame sm _ _ _ _ _ _ s1).
  rewrite (dfgls_tail_frame sm _ _ _ _ _ _ s2).
  cbv zeta. cbn [fst snd calls]. by rewrite !drop_app_length.
Qed.

Lemma dfgls_shape_insensitive_witness :
  holds demo_state demo_x1 demo_series ∧ holds demo_state' demo_x' demo_series ∧
  series_shape demo_x1 ∧ series_shape demo_x' ∧
  (dfgls demo_sm demo_x1 "ct" None (Some "AIC") demo_state).1
  = (dfgls demo_sm demo_x' "ct" None (Some "AIC") demo_state').1 ∧
  new_calls demo_state (dfgls demo_sm demo_x1 "ct" None (Some "AIC") demo_state)
  = new_calls demo_state'
      (dfgls demo_sm demo_x' "ct" None (Some "AIC") demo_state').
Proof.
  assert (holds demo_state demo_x1 demo_series) as H1 by (by split).
  assert (holds demo_state' demo_x' demo_series) as H2 by (by split).
  assert (series_shape demo_x1) as Hsh1
    by (unfold series_shape, ndim, dim; simpl; lia).
  assert (series_shape demo_x') as Hsh2
    by (unfold series_shape, ndim, dim; simpl; lia).
  split_and!; [done ..| |];
    apply (dfgls_shape_insensitive demo_sm demo_state demo_state' demo_x1
             demo_x' demo_series "ct" None (Some "AIC") H1 H2 Hsh1 Hsh2).
Defined.

(** The outcome of [correct_ct] in terms of what the two names give. *)
Lemma correct_ct_outcome (sm : statsmodels) (dtx : ndarray) (a : adfres)
    (s : state) :
  (correct_ct sm dtx a s).1
  = match mackinnoncrit sm 1 "c" (Z.of_nat (dim dtx 0)) with
    | Raise e => Raise e
    | Return cvs =>
      match mackinnonp sm (adfstat a) "c" 1 with
      | Raise e => Raise e
      | Return p =>
        match cvs !! 0, cvs !! 1, cvs !! 2 with
        | Some cv1, Some cv5, Some cv10 =>
            Return (AdfRes (adfstat a) p (usedlag a) (nobs a)
                      (cv_dict cv1 cv5 cv10) None)
        | _, _, _ => Raise IndexError
        end
      end
    end.
Proof.
  unfold correct_ct, global_name, mackinnoncrit, mackinnonp, invoke, getitem,
    raise.
  unfold mbind, M_bind, mret, M_ret.
  destruct (mackinnoncrit_global sm) as [crit|]; [| done]. simpl.
  destruct (crit _ _ _) as [cvs|e]; [| done].
  destruct (mackinnonp_global sm) as [pval|]; [| done]. simpl.
  destruct (pval _ _ _) as [p|e]; [| done].
  destruct (cvs !! 0); [| done]. destruct (cvs !! 1); [| done].
  by destruct (cvs !! 2).
Qed.

Lemma correct_ct_same_statistic (sm1 sm2 : statsmodels) (dtx : ndarray)
    (a1 a2 : adfres) (s1 s2 : state) :
  mackinnoncrit sm1 = mackinnoncrit sm2 → mackinnonp sm1 = mackinnonp sm2 →
  adfstat a1 = adfstat a2 → usedlag a1 = usedlag a2 → nobs a1 = nobs a2 →
  (correct_ct sm1 dtx a1 s1).1 = (correct_ct sm2 dtx a2 s2).1.
Proof.
  intros Hc Hp Hst Hlag Hn. rewrite !correct_ct_outcome.
  by rewrite Hc, Hp, Hst, Hlag, Hn.
Qed.

Lemma dfgls_tail_same_statistic (sm1 sm2 : statsmodels) (n : nat)
    (d : list float) (maxlag : option Z) (autolag : option string)
    (alpha : float) (s : state) :
  OLS sm1 = OLS sm2 →
  mackinnoncrit sm1 = mackinnoncrit sm2 → mackinnonp sm1 = mackinnonp sm2 →
  (∀ v r, same_statistic (adfuller sm1 v r maxlag autolag)
            (adfuller sm2 v r maxlag autolag)) →
  (dfgls_tail sm1 n d "ct" maxlag autolag alpha s).1
  = (dfgls_tail sm2 n d "ct" maxlag autolag alpha s).1.
Proof.
  intros Hols Hc Hp Hadf. unfold dfgls_tail. cbv zeta.
  rewrite !(run_bind (invoke _ _)), !run_invoke, Hols. cbn [heap calls].
  destruct (OLS sm2 _ _) as [arc|e]; [| done].
  rewrite !(run_bind (getitem arc 0)).
  destruct (arc !! 0) as [a0|] eqn:Ha0.
  2:{ by rewrite !(run_getitem_None arc 0). }
  rewrite !(run_getitem arc 0 a0) by done.
  destruct (decide ("ct" = "ct")) as [_|?]; [| done].
  rewrite !(run_bind (getitem arc 1)).
  destruct (arc !! 1) as [a1|] eqn:Ha1.
  2:{ by rewrite !(run_getitem_None arc 1). }
  rewrite !(run_getitem arc 1 a1) by done.
  rewrite !(run_bind (invoke _ _)), !run_invoke. cbn [heap calls].
  specialize (Hadf (ArrVal [n] (dtx_data "ct" a0 a1 n d)) "nc").
  destruct (adfuller sm1 _ _ _ _) as [r1|e1], (adfuller sm2 _ _ _ _) as [r2|e2];
    cbn [same_statistic] in Hadf; try done; [| by subst].
  destruct Hadf as (Hst & Hlag & Hn).
  by apply correct_ct_same_statistic.
Qed.

(** X6: for ['ct'] the [pvalue], the [critvalues] and the [icbest] that
    [adfuller] returns have no influence on the result: two [adfuller]s that
    agree on the statistic, the lag and the number of observations (and on
    what they raise) give the same outcome. *)
Theorem trend_result_ignores_adfuller_pvalue (sm1 sm2 : statsmodels)
    (s : state) (x : ndarray) (d : list float) (maxlag : option Z)
    (autolag : option string) :
  holds s x d →
  OLS sm1 = OLS sm2 →
  mackinnoncrit sm1 = mackinnoncrit sm2 → mackinnonp sm1 = mackinnonp sm2 →
  (∀ v r, same_statistic (adfuller sm1 v r maxlag autolag)
            (adfuller sm2 v r maxlag autolag)) →
  (dfgls sm1 x "ct" maxlag autolag s).1 = (dfgls sm2 x "ct" maxlag autolag s).1.
Proof.
  intros Hx Hols Hc Hp Hadf.
  assert ("ct" ∈ ["c"; "ct"]) as Hr by (apply list_elem_of_In; simpl; auto).
  destruct (decide (series_shape x)) as [Hsh|Hsh].
  2:{ by rewrite !dfgls_bad_shape. }
  destruct (decide (length d = 0)) as [Hn|Hn].
  { by rewrite (dfgls_empty sm1 s x d), (dfgls_empty sm2 s x d). }
  destruct (dfgls_on_valid sm1 s x d "ct" maxlag autolag)
    as [-> _]; [done | done | done | lia |].
  destruct (dfgls_on_valid sm2 s x d "ct" maxlag autolag)
    as [-> _]; [done | done | done | lia |].
  by apply dfgls_tail_same_statistic.
Qed.

Lemma trend_result_ignores_adfuller_pvalue_witness :
  holds demo_state demo_x demo_series ∧
  OLS demo_sm = OLS demo_sm' ∧
  mackinnoncrit demo_sm = mackinnoncrit demo_sm' ∧
  mackinnonp demo_sm = mackinnonp demo_sm' ∧
  (∀ v r, same_statistic (adfuller demo_sm v r None (Some "AIC"))
            (adfuller demo_sm' v r None (Some "AIC"))) ∧
  (dfgls demo_sm demo_x "ct" None (Some "AIC") demo_state).1
  = (dfgls demo_sm' demo_x "ct" None (Some "AIC") demo_state).1.
Proof.
  assert (holds demo_state demo_x demo_series) as Hx by (by split).
  assert (∀ v r, same_statistic (adfuller demo_sm v r None (Some "AIC"))
                   (adfuller demo_sm' v r None (Some "AIC"))) as Hadf
    by (intros v r; simpl; auto).
  split_and!; [done | reflexivity | reflexivity | reflexivity | exact Hadf |].
  apply (trend_result_ignores_adfuller_pvalue demo_sm demo_sm' demo_state
           demo_x demo_series None (Some "AIC") Hx eq_refl eq_refl eq_refl
           Hadf).
Defined.

(** X7: with a [regression] other than ['ct'], [dfgls] does not use
    [mackinnoncrit] and [mackinnonp]: whatever these two names are bound to,
    the run is the same, state included. *)
Theorem constant_only_ignores_mackinnon (sm1 sm2 : statsmodels) (s : state)
    (x : ndarray) (regression : string) (maxlag : option Z)
    (autolag : option string) :
  regression ≠ "ct" → OLS sm1 = OLS sm2 → adfuller sm1 = adfuller sm2 →
  dfgls sm1 x regression maxlag autolag s
  = dfgls sm2 x regression maxlag autolag s.
Proof.
  intros Hr Hols Hadf. unfold dfgls, run_OLS, run_adfuller.
  rewrite Hols, Hadf.
  destruct (decide (regression = "ct")) as [Hct|Hct]; [done |].
  reflexivity.
Qed.

Lemma constant_only_ignores_mackinnon_witness :
  "c" ≠ "ct" ∧
  OLS demo_sm
  = OLS (StatsModels (OLS demo_sm) (adfuller demo_sm)
           (λ _ _ _, Raise (OtherError "NameError"))
           (λ _ _ _, Raise (OtherError "NameError"))) ∧
  adfuller demo_sm
  = adfuller (StatsModels (OLS demo_sm) (adfuller demo_sm)
                (λ _ _ _, Raise (OtherError "NameError"))
                (λ _ _ _, Raise (OtherError "NameError"))) ∧
  dfgls demo_sm demo_x "c" None (Some "AIC") demo_state
  = dfgls (StatsModels (OLS demo_sm) (adfuller demo_sm)
             (λ _ _ _, Raise (OtherError "NameError"))
             (λ _ _ _, Raise (OtherError "NameError")))
      demo_x "c" None (Some "AIC") demo_state.
Proof.
  assert ("c" ≠ "ct") as Hr by discriminate.
  split_and!; [exact Hr | reflexivity | reflexivity |].
  apply (constant_only_ignores_mackinnon demo_sm _ demo_state demo_x "c" None
           (Some "AIC") Hr eq_refl eq_refl).
Defined.

Lemma alpha_constant_small (n : nat) :
  1 ≤ n ≤ 7 →
  PrimFloat.leb (of_int 1 - of_int 7 / of_int (Z.of_nat n)) 0 = true.
Proof.
  intros Hn.
  do 8 (destruct n as [|n]; [first [lia | vm_compute; reflexivity] |]). lia.
Qed.

Lemma alpha_trend_small (n : nat) :
  1 ≤ n ≤ 13 →
  PrimFloat.leb (of_int 1 - 13.5 / of_int (Z.of_nat n)) 0 = true.
Proof.
  intros Hn.
  do 14 (destruct n as [|n]; [first [lia | vm_compute; reflexivity] |]). lia.
Qed.

(** X8: short series are not rejected.  For ['c'] with at most 7
    observations and for ['ct'] with at most 13, [alpha] is zero or negative
    and the auxiliary regression is still run with it. *)
Theorem short_series_nonpositive_alpha (sm : statsmodels) (s : state)
    (x : ndarray) (d : list float) (regression : string) (maxlag : option Z)
    (autolag : option string) :
  holds s x d → series_shape x →
  (regression = "c" ∧ 1 ≤ length d ≤ 7) ∨
  (regression = "ct" ∧ 1 ≤ length d ≤ 13) →
  let n := length d in
  ∃ alpha tl,
    PrimFloat.leb alpha 0 = true ∧
    calls (dfgls sm x regression maxlag autolag s).2
    = calls s ++
      call_OLS (ArrVal [n; 1] (endog_data alpha n d))
        (ArrVal [n; ncols regression] (exog_data regression alpha n)) :: tl.
Proof.
  intros Hx Hsh Hshort n.
  assert (regression ∈ ["c"; "ct"]) as Hr.
  { apply list_elem_of_In. simpl. destruct Hshort as [[-> _] | [-> _]]; auto. }
  destruct (dfgls_on_valid sm s x d regression maxlag autolag)
    as [_ Hcalls]; [done | done | done | lia |].
  destruct (dfgls_tail_first_call sm n d regression maxlag autolag
              (if decide (regression = "c")
               then (of_int 1 - of_int 7 / of_int (Z.of_nat n))%float
               else (of_int 1 - 13.5 / of_int (Z.of_nat n))%float) s)
    as [tl Htl].
  eexists _, tl. split; [| etrans; [exact Hcalls | exact Htl]].
  destruct Hshort as [[-> Hn] | [-> Hn]].
  - rewrite decide_True by done. by apply alpha_constant_small.
  - rewrite decide_False by done. by apply alpha_trend_small.
Qed.

Lemma short_series_nonpositive_alpha_witness :
  holds demo_state demo_x demo_series ∧ series_shape demo_x ∧
  (("ct" = "c" ∧ 1 ≤ length demo_series ≤ 7) ∨
   ("ct" = "ct" ∧ 1 ≤ length demo_series ≤ 13)) ∧
  ∃ alpha tl,
    PrimFloat.leb alpha 0 = true ∧
    calls (dfgls demo_sm demo_x "ct" None (Some "AIC") demo_state).2
    = calls demo_state ++
      call_OLS (ArrVal [4; 1] (endog_data alpha 4 demo_series))
        (ArrVal [4; ncols "ct"] (exog_data "ct" alpha 4)) :: tl.
Proof.
  assert (holds demo_state demo_x demo_series) as Hx by (by split).
  assert (series_shape demo_x) as Hsh
    by (unfold series_shape, ndim, dim; simpl; lia).
  assert (("ct" = "c" ∧ 1 ≤ length demo_series ≤ 7) ∨
          ("ct" = "ct" ∧ 1 ≤ length demo_series ≤ 13)) as Hshort
    by (right; simpl; split; [reflexivity | lia]).
  split_and!; [done ..|].
  apply (short_series_nonpositive_alpha demo_sm demo_state demo_x demo_series
           "ct" None (Some "AIC") Hx Hsh Hshort).
Defined.

Lemma scatter_nothing (sl : slice) (f : nat → float → float) (d : list float) :
  len sl = 0 → scatter sl f d = d.
Proof.
  intros Hlen. apply list_eq. intros k.
  apply lookup_scatter_out. unfold slice_pos.
  rewrite decide_False; [done | lia].
Qed.

Lemma endog_data_single (alpha : float) (d : list float) :
  endog_data alpha 1 d = d.
Proof. unfold endog_data, isub_data. by apply scatter_nothing. Qed.

Lemma exog_data_single (regression : string) (alpha : float) :
  exog_data regression alpha 1 = replicate (ncols regression) 1%float.
Proof.
  unfold exog_data, isub_data, assign_data, isub_scalar_data. cbv zeta.
  rewrite !scatter_nothing by done.
  assert (prod_shape [1; ncols regression] = ncols regression) as ->
    by (simpl; lia).
  by case_decide.
Qed.

(** X9: with a single observation nothing is quasi-differenced: the
    auxiliary regression is run on the series itself against one row of
    ones. *)
Theorem single_observation_regression (sm : statsmodels) (s : state)
    (x : ndarray) (d : list float) (regression : string) (maxlag : option Z)
    (autolag : option string) :
  holds s x d → series_shape x → regression ∈ ["c"; "ct"] → length d = 1 →
  ∃ tl,
    calls (dfgls sm x regression maxlag autolag s).2
    = calls s ++
      call_OLS (ArrVal [1; 1] d)
        (ArrVal [1; ncols regression] (replicate (ncols regression) 1%float))
      :: tl.
Proof.
  intros Hx Hsh Hr Hn.
  destruct (dfgls_on_valid sm s x d regression maxlag autolag)
    as [_ Hcalls]; [done | done | done | lia |].
  rewrite Hcalls, Hn.
  destruct (dfgls_tail_first_call sm 1 d regression maxlag autolag
              (if decide (regression = "c")
               then (of_int 1 - of_int 7 / of_int (Z.of_nat 1))%float
               else (of_int 1 - 13.5 / of_int (Z.of_nat 1))%float) s)
    as [tl Htl].
  exists tl. by rewrite Htl, endog_data_single, exog_data_single.
Qed.

Lemma single_observation_regression_witness :
  holds (State {[ 5%positive := [3%float] ]} []) (NdArray 5%positive [1])
    [3%float] ∧
  series_shape (NdArray 5%positive [1]) ∧ "ct" ∈ ["c"; "ct"] ∧
  length [3%float] = 1 ∧
  ∃ tl,
    calls (dfgls demo_sm (NdArray 5%positive [1]) "ct" None (Some "AIC")
             (State {[ 5%positive := [3%float] ]} [])).2
    = calls (State {[ 5%positive := [3%float] ]} []) ++
      call_OLS (ArrVal [1; 1] [3%float])
        (ArrVal [1; ncols "ct"] (replicate (ncols "ct") 1%float))
      :: tl.
Proof.
  assert (holds (State {[ 5%positive := [3%float] ]} [])
            (NdArray 5%positive [1]) [3%float]) as Hx by (by split).
  assert (series_shape (NdArray 5%positive [1])) as Hsh
    by (unfold series_shape, ndim, dim; simpl; lia).
  assert ("ct" ∈ ["c"; "ct"]) as Hr by (apply list_elem_of_In; simpl; auto).
  split_and!; [done ..|].
  apply (single_observation_regression demo_sm _ _ [3%float] "ct" None
           (Some "AIC") Hx Hsh Hr eq_refl).
Defined.

(** X10: when the dictionary of the result has the keys ['1%'], ['5%'] and
    ['10%'], [_print_res] does not raise and writes exactly three lines: the
    statistic, p-value, lags and observations; the three critical values in
    the order 1%, 5%, 10% whatever else the dictionary holds; the time
    elapsed since [st]. *)
Theorem print_res_three_lines (format_5f : float → string) (now st : float)
    (res : adfres) (cv1 cv5 cv10 : float) :
  critvalues res !! "1%" = Some cv1 → critvalues res !! "5%" = Some cv5 →
  critvalues res !! "10%" = Some cv10 →
  _print_res format_5f now res st
  = (Return tt,
     [py_print ["  dfgls-stat ="; format_5f (adfstat res); " pval =";
                format_5f (pvalue res); " arlags = " +:+ pretty (usedlag res);
                " nobs = " +:+ pretty (nobs res)];
      py_print ["    cvdict = '1%': " +:+ format_5f cv1;
                " '5%': " +:+ format_5f cv5; " '10%': " +:+ format_5f cv10];
      py_print ["    time ="; format_5f (now - st)%float]]).
Proof.
  intros H1 H5 H10. unfold _print_res, dict_getitem.
  by rewrite H1, H5, H10.
Qed.

Lemma print_res_three_lines_witness :
  critvalues (AdfRes (-2.5) 0.125 1 2 (cv_dict (-2.5) (-1.875) (-1.625)) None)
    !! "1%" = Some (-2.5)%float ∧
  critvalues (AdfRes (-2.5) 0.125 1 2 (cv_dict (-2.5) (-1.875) (-1.625)) None)
    !! "5%" = Some (-1.875)%float ∧
  critvalues (AdfRes (-2.5) 0.125 1 2 (cv_dict (-2.5) (-1.875) (-1.625)) None)
    !! "10%" = Some (-1.625)%float ∧
  _print_res demo_format 12
    (AdfRes (-2.5) 0.125 1 2 (cv_dict (-2.5) (-1.875) (-1.625)) None) 10
  = (Return tt,
     ["  dfgls-stat = -  pval = +  arlags = 1  nobs = 2";
      "    cvdict = '1%': -  '5%': -  '10%': -";
      "    time = +"]).
Proof.
  split_and!; [vm_compute; reflexivity ..|].
  apply (print_res_three_lines demo_format 12 10
           (AdfRes (-2.5) 0.125 1 2 (cv_dict (-2.5) (-1.875) (-1.625)) None)
           (-2.5) (-1.875) (-1.625));
    vm_compute; reflexivity.
Defined.

(** X11: [_print_res] reads the keys ['1%'], ['5%'] and ['10%'] of the
    dictionary after it has written its first line: when one of them is
    missing it raises [KeyError] with that one line written and nothing
    else. *)
Theorem print_res_missing_key (format_5f : float → string) (now st : float)
    (res : adfres) :
  critvalues res !! "1%" = None ∨ critvalues res !! "5%" = None ∨
  critvalues res !! "10%" = None →
  _print_res format_5f now res st
  = (Raise (OtherError "KeyError"),
     [py_print ["  dfgls-stat ="; format_5f (adfstat res); " pval =";
                format_5f (pvalue res); " arlags = " +:+ pretty (usedlag res);
                " nobs = " +:+ pretty (nobs res)]]).
Proof.
  intros Hmiss. unfold _print_res, dict_getitem.
  destruct (critvalues res !! "1%") as [cv1|]; [| done].
  destruct (critvalues res !! "5%") as [cv5|]; [| done].
  destruct (critvalues res !! "10%") as [cv10|]; [| done].
  by destruct Hmiss as [? | [? | ?]].
Qed.

Lemma print_res_missing_key_witness :
  (critvalues (AdfRes (-2.5) 0.75 1 2 {[ "1%" := (-9)%float ]} None) !! "1%"
   = None ∨
   critvalues (AdfRes (-2.5) 0.75 1 2 {[ "1%" := (-9)%float ]} None) !! "5%"
   = None ∨
   critvalues (AdfRes (-2.5) 0.75 1 2 {[ "1%" := (-9)%float ]} None) !! "10%"
   = None) ∧
  _print_res demo_format 12
    (AdfRes (-2.5) 0.75 1 2 {[ "1%" := (-9)%float ]} None) 10
  = (Raise (OtherError "KeyError"), ["  dfgls-stat = -  pval = +  arlags = 1  nobs = 2"]).
Proof.
  assert (critvalues (AdfRes (-2.5) 0.75 1 2 {[ "1%" := (-9)%float ]} None)
            !! "1%" = None ∨
          critvalues (AdfRes (-2.5) 0.75 1 2 {[ "1%" := (-9)%float ]} None)
            !! "5%" = None ∨
          critvalues (AdfRes (-2.5) 0.75 1 2 {[ "1%" := (-9)%float ]} None)
            !! "10%" = None) as Hmiss
    by (right; left; vm_compute; reflexivity).
  split; [exact Hmiss |].
  apply (print_res_missing_key demo_format 12 10
           (AdfRes (-2.5) 0.75 1 2 {[ "1%" := (-9)%float ]} None) Hmiss).
Defined.

(** The result of the small run with ['c'] and an [adfuller] whose
    dictionary has one key only is the one printed above. *)
Example dfgls_demo_c_one_key :
  (dfgls demo_sm' demo_x "c" None (Some "AIC") demo_state).1
  = Return (AdfRes (-2.5) 0.75 1 2 {[ "1%" := (-9)%float ]} None).
Proof. vm_compute. reflexivity. Qed.
